(** * ReCycleGAN: the orchestration module [lib/model/recycle_gan.py]

    A shallow embedding of the class [ReCycleGAN] and the facts its
    description states about it.

    Conventions of the embedding.
    - Python integers are [Z]; Python float literals (0.0, 0.5, 10.,
      0.001, 0.0001) are the rationals they denote, no arithmetic is done
      on them here.
    - A tensor is a value of an abstract type; the operations of the
      tensor library and the classes imported from [lib.model], [lib.buffer]
      and [lib.loss] are the fields of the class [Torch] below.  Calls into
      them are taken to return; what Python itself raises (a missing
      attribute, an index out of range, the explicit [raise] statements,
      [torch.cat] of an empty list, [torch.chunk] with a non-positive count)
      is modelled.
    - A rank-5 tensor [B T' C H W] is the list of its slices along the time
      dimension.
    - [x.to(device)] leaves the value of [x] unchanged, so it is the
      identity on values.
    - Where a fact rests on a network refusing a tensor it was not built
      for, the networks check the channel count of their input
      ([call_checked]). *)

From Stdlib Require Import ZArith QArith List String DecimalString Bool Lia.
Import ListNotations.
Open Scope string_scope.
Open Scope list_scope.
Open Scope Z_scope.

Set Implicit Arguments.

(** ** Python values and exceptions *)

Inductive PyExc : Type :=
| Exception (args : list string)
| IndexError
| AttributeError (attr : string)
| RuntimeError (msg : string).

Inductive result (A : Type) : Type :=
| Ok (a : A)
| Raise (e : PyExc).
Arguments Ok {A} a.
Arguments Raise {A} e.

(** [range(lo, hi)] *)
Definition py_range (lo hi : Z) : list Z :=
  map (fun k => lo + Z.of_nat k) (seq 0 (Z.to_nat (hi - lo))).

(** [l[i]], with Python's negative indices; [None] stands for IndexError. *)
Definition py_getitem {A : Type} (l : list A) (i : Z) : option A :=
  let n := Z.of_nat (List.length l) in
  let j := if i <? 0 then i + n else i in
  if (0 <=? j) && (j <? n) then nth_error l (Z.to_nat j) else None.

(** [l[lo:hi]], with Python's clamping of the two bounds. *)
Definition py_slice {A : Type} (l : list A) (lo hi : Z) : list A :=
  let n := Z.of_nat (List.length l) in
  let clamp x := if x <? 0 then Z.max (x + n) 0 else Z.min x n in
  let a := clamp lo in
  let b := clamp hi in
  firstn (Z.to_nat (b - a)) (skipn (Z.to_nat a) l).

(** ** The tensor library, as far as the module uses it *)

(** [torch.split(x, split_size, dim)] on the list of slices of [x]. *)
Fixpoint split_fuel {A : Type} (fuel sz : nat) (l : list A) : list (list A) :=
  match fuel with
  | O => []
  | S f =>
      match l with
      | [] => []
      | _ => firstn sz l :: split_fuel f sz (skipn sz l)
      end
  end.

Definition torch_split {A : Type} (l : list A) (sz : nat) : list (list A) :=
  split_fuel (List.length l) sz l.

(** The decimal form of an integer, as [str] prints it. *)
Definition string_of_Z (z : Z) : string :=
  NilZero.string_of_int (Z.to_int z).

(** What [torch.chunk] raises for a number of chunks that is not positive. *)
Definition chunk_error (chunks : Z) : PyExc :=
  RuntimeError
    (String.append "chunk expects `chunks` to be greater than 0, got: "
                   (string_of_Z chunks)).

(** [torch.chunk(x, chunks, dim)]: pieces of [ceil(n / chunks)] slices, the
    last one shorter, hence fewer than [chunks] pieces when [n] is not a
    multiple; [chunks] empty pieces when the dimension is empty. *)
Definition torch_chunk {A : Type} (x : list A) (chunks : Z)
  : result (list (list A)) :=
  if chunks <=? 0 then Raise (chunk_error chunks)
  else
    let n := Z.of_nat (List.length x) in
    let split_size := (n + chunks - 1) / chunks in
    if n =? 0 then Ok (repeat [] (Z.to_nat chunks))
    else Ok (torch_split x (Z.to_nat split_size)).

(** The network objects.  The three classes live in [lib.model]; an object
    is the class, the arguments it was built with, and its identity (two
    networks built with the same arguments are different objects with
    their own weights). *)
Inductive Net : Type :=
| SpatialTranslationModel (oid : nat) (n_in n_out r : Z)
| TemporalPredictorModel (oid : nat) (n_in n_out r : Z)
| Discriminator (oid : nat) (n_in r : Z).

(** [torch.optim.Adam(params, lr = ...)] *)
Inductive Optimizer (Param : Type) : Type :=
| Adam (params : list Param) (lr : Q).

Definition opt_params {Param} (o : Optimizer Param) : list Param :=
  match o with Adam ps _ => ps end.
Definition opt_lr {Param} (o : Optimizer Param) : Q :=
  match o with Adam _ lr => lr end.

(** What autograd and the optimizers did to the parameters so far: the
    weights of the networks are a function of this history. *)
Inductive Event (tensor Param : Type) : Type :=
| ZeroGrad (o : Optimizer Param)
| Backward (loss : tensor)
| Step (o : Optimizer Param).
Arguments ZeroGrad {tensor Param} o.
Arguments Backward {tensor Param} loss.
Arguments Step {tensor Param} o.

Class Torch : Type := {
  tensor : Type;
  (* torch.cat(xs, dim = 1) of a non-empty list *)
  t_cat : list tensor -> tensor;
  (* a block of several time slices that squeeze(1) leaves as it is *)
  t_stack : list tensor -> tensor;
  t_detach : tensor -> tensor;
  t_float : tensor -> tensor;
  t_add : tensor -> tensor -> tensor;          (* x + y *)
  t_mul : tensor -> Q -> tensor;               (* x * 10. *)
  t_rmul : Q -> tensor -> tensor;              (* 0.5 * x *)
  t_radd : Q -> tensor -> tensor;              (* 0.0 + x *)
  (* lib.loss.GANLoss() and nn.MSELoss(), called *)
  GANLoss : tensor -> bool -> tensor;
  MSELoss : tensor -> tensor -> tensor;
  (* nn.Module.parameters() and nn.Module.__call__ *)
  Param : Type;
  parameters : Net -> list Param;
  net_forward : list (Event tensor Param) -> Net -> tensor -> tensor;
  (* lib.buffer.ReplayBuffer: a fresh buffer, and push_and_pop, which may
     draw from the global random generator *)
  Rng : Type;
  Buffer : Type;
  ReplayBuffer : Buffer;
  push_and_pop : Rng -> Buffer -> tensor -> tensor * Buffer * Rng
}.

(** [itertools.chain] *)
Definition chain {A : Type} (ls : list (list A)) : list A := List.concat ls.

Section ReCycleGAN.

Context {TL : Torch}.

Definition history : Type := list (Event tensor Param).

(** [x.to(device)] *)
Definition to_device (device : string) (x : tensor) : tensor := x.

(** [torch.cat(xs, dim = 1)] *)
Definition torch_cat (xs : list tensor) : result tensor :=
  match xs with
  | [] => Raise (RuntimeError "torch.cat(): expected a non-empty list of Tensors")
  | _ => Ok (t_cat xs)
  end.

(** [chunk.squeeze(1)]: a piece of one slice loses the time dimension. *)
Definition squeeze1 (chunk : list tensor) : tensor :=
  match chunk with
  | [x] => x
  | _ => t_stack chunk
  end.

(** A loss accumulator: the float it starts as, or a tensor. *)
Inductive pyval : Type :=
| PyFloat (q : Q)
| PyTensor (x : tensor).

(** [acc += x] for a tensor [x] *)
Definition iadd (acc : pyval) (x : tensor) : pyval :=
  match acc with
  | PyFloat q => PyTensor (t_radd q x)
  | PyTensor a => PyTensor (t_add a x)
  end.

(** ** The object *)

(** The attributes of [self]; those assigned outside [__init__] are
    optional.  [self.t] and [self.T] are [self_t] and [self_T]. *)
Record ReCycleGAN : Type := {
  self_t : Z;
  self_T : Z;
  device : string;
  G_A_to_B : Net;
  G_B_to_A : Net;
  P_A : Net;
  P_B : Net;
  D_A : Net;
  D_B : Net;
  optim_G : Optimizer Param;
  optim_D : Optimizer Param;
  fake_a_buffer : Buffer;
  fake_b_buffer : Buffer;
  true_a_seq : option (list tensor);
  true_b_seq : option (list tensor);
  loss_D : option pyval;
  loss_G : option pyval
}.

(** The object together with what lives outside it. *)
Record World : Type := {
  self : ReCycleGAN;
  autograd : history;
  rng : Rng;
  stdout : list string
}.

Definition __init__ (A_channel B_channel T t r : Z) (device : string)
  : ReCycleGAN :=
  let self_t := t in
  let self_T := T + self_t in
  let G_A_to_B := SpatialTranslationModel 0 A_channel B_channel r in
  let G_B_to_A := SpatialTranslationModel 1 B_channel A_channel r in
  let P_A := TemporalPredictorModel 2 (self_t * A_channel) A_channel r in
  let P_B := TemporalPredictorModel 3 (self_t * B_channel) B_channel r in
  let D_A := Discriminator 4 A_channel r in
  let D_B := Discriminator 5 B_channel r in
  {| self_t := self_t;
     self_T := self_T;
     device := device;
     G_A_to_B := G_A_to_B;
     G_B_to_A := G_B_to_A;
     P_A := P_A;
     P_B := P_B;
     D_A := D_A;
     D_B := D_B;
     optim_G := Adam (chain [parameters G_A_to_B; parameters G_B_to_A;
                             parameters P_A; parameters P_B]) (1 # 1000);
     optim_D := Adam (chain [parameters D_A; parameters D_B]) (1 # 10000);
     fake_a_buffer := ReplayBuffer;
     fake_b_buffer := ReplayBuffer;
     true_a_seq := None;
     true_b_seq := None;
     loss_D := None;
     loss_G := None |}.

(** The default arguments of the constructor. *)
Definition __init__default : ReCycleGAN := __init__ 3 3 30 2 1 "cpu".

(** The sub-modules registered on the object, in the order of assignment. *)
Definition children (m : ReCycleGAN) : list Net :=
  [G_A_to_B m; G_B_to_A m; P_A m; P_B m; D_A m; D_B m].

Definition optimizers (m : ReCycleGAN) : list (Optimizer Param) :=
  [optim_G m; optim_D m].

Definition buffers (m : ReCycleGAN) : list Buffer :=
  [fake_a_buffer m; fake_b_buffer m].

Definition is_translator (n : Net) : bool :=
  match n with SpatialTranslationModel _ _ _ _ => true | _ => false end.
Definition is_predictor (n : Net) : bool :=
  match n with TemporalPredictorModel _ _ _ _ => true | _ => false end.
Definition is_discriminator (n : Net) : bool :=
  match n with Discriminator _ _ _ => true | _ => false end.

Definition net_oid (n : Net) : nat :=
  match n with
  | SpatialTranslationModel o _ _ _ => o
  | TemporalPredictorModel o _ _ _ => o
  | Discriminator o _ _ => o
  end.

Definition net_in (n : Net) : Z :=
  match n with
  | SpatialTranslationModel _ i _ _ => i
  | TemporalPredictorModel _ i _ _ => i
  | Discriminator _ i _ => i
  end.

Definition net_out (n : Net) : option Z :=
  match n with
  | SpatialTranslationModel _ _ o _ => Some o
  | TemporalPredictorModel _ _ o _ => Some o
  | Discriminator _ _ _ => None
  end.

(** ** Attribute updates *)

Definition set_input (a b : list tensor) (m : ReCycleGAN) : ReCycleGAN :=
  {| self_t := self_t m; self_T := self_T m; device := device m;
     G_A_to_B := G_A_to_B m; G_B_to_A := G_B_to_A m;
     P_A := P_A m; P_B := P_B m; D_A := D_A m; D_B := D_B m;
     optim_G := optim_G m; optim_D := optim_D m;
     fake_a_buffer := fake_a_buffer m; fake_b_buffer := fake_b_buffer m;
     true_a_seq := Some a; true_b_seq := Some b;
     loss_D := loss_D m; loss_G := loss_G m |}.

Definition set_loss_D (v : pyval) (m : ReCycleGAN) : ReCycleGAN :=
  {| self_t := self_t m; self_T := self_T m; device := device m;
     G_A_to_B := G_A_to_B m; G_B_to_A := G_B_to_A m;
     P_A := P_A m; P_B := P_B m; D_A := D_A m; D_B := D_B m;
     optim_G := optim_G m; optim_D := optim_D m;
     fake_a_buffer := fake_a_buffer m; fake_b_buffer := fake_b_buffer m;
     true_a_seq := true_a_seq m; true_b_seq := true_b_seq m;
     loss_D := Some v; loss_G := loss_G m |}.

Definition set_loss_G (v : pyval) (m : ReCycleGAN) : ReCycleGAN :=
  {| self_t := self_t m; self_T := self_T m; device := device m;
     G_A_to_B := G_A_to_B m; G_B_to_A := G_B_to_A m;
     P_A := P_A m; P_B := P_B m; D_A := D_A m; D_B := D_B m;
     optim_G := optim_G m; optim_D := optim_D m;
     fake_a_buffer := fake_a_buffer m; fake_b_buffer := fake_b_buffer m;
     true_a_seq := true_a_seq m; true_b_seq := true_b_seq m;
     loss_D := loss_D m; loss_G := Some v |}.

Definition set_fake_a_buffer (b : Buffer) (m : ReCycleGAN) : ReCycleGAN :=
  {| self_t := self_t m; self_T := self_T m; device := device m;
     G_A_to_B := G_A_to_B m; G_B_to_A := G_B_to_A m;
     P_A := P_A m; P_B := P_B m; D_A := D_A m; D_B := D_B m;
     optim_G := optim_G m; optim_D := optim_D m;
     fake_a_buffer := b; fake_b_buffer := fake_b_buffer m;
     true_a_seq := true_a_seq m; true_b_seq := true_b_seq m;
     loss_D := loss_D m; loss_G := loss_G m |}.

Definition set_fake_b_buffer (b : Buffer) (m : ReCycleGAN) : ReCycleGAN :=
  {| self_t := self_t m; self_T := self_T m; device := device m;
     G_A_to_B := G_A_to_B m; G_B_to_A := G_B_to_A m;
     P_A := P_A m; P_B := P_B m; D_A := D_A m; D_B := D_B m;
     optim_G := optim_G m; optim_D := optim_D m;
     fake_a_buffer := fake_a_buffer m; fake_b_buffer := b;
     true_a_seq := true_a_seq m; true_b_seq := true_b_seq m;
     loss_D := loss_D m; loss_G := loss_G m |}.

Definition with_self (m : ReCycleGAN) (w : World) : World :=
  {| self := m; autograd := autograd w; rng := rng w; stdout := stdout w |}.

Definition with_rng (g : Rng) (w : World) : World :=
  {| self := self w; autograd := autograd w; rng := g; stdout := stdout w |}.

Definition record (e : Event tensor Param) (w : World) : World :=
  {| self := self w; autograd := autograd w ++ [e]; rng := rng w;
     stdout := stdout w |}.

Definition print (line : string) (w : World) : World :=
  {| self := self w; autograd := autograd w; rng := rng w;
     stdout := stdout w ++ [line] |}.

(** ** Computations: a state that survives an exception *)

Definition M (A : Type) : Type := World -> result A * World.

Definition ret {A : Type} (a : A) : M A := fun w => (Ok a, w).

Definition bind {A B : Type} (c : M A) (k : A -> M B) : M B :=
  fun w =>
    match c w with
    | (Ok a, w') => k a w'
    | (Raise e, w') => (Raise e, w')
    end.

Definition raise {A : Type} (e : PyExc) : M A := fun w => (Raise e, w).

Definition lift {A : Type} (r : result A) : M A := fun w => (r, w).

Definition gets {A : Type} (f : ReCycleGAN -> A) : M A :=
  fun w => (Ok (f (self w)), w).

Definition modify (f : ReCycleGAN -> ReCycleGAN) : M unit :=
  fun w => (Ok tt, with_self (f (self w)) w).

Definition effect (f : World -> World) : M unit := fun w => (Ok tt, f w).

(** [self.name], an attribute that may not have been assigned yet *)
Definition getattr {A : Type} (name : string) (f : ReCycleGAN -> option A)
  : M A :=
  fun w =>
    match f (self w) with
    | Some a => (Ok a, w)
    | None => (Raise (AttributeError name), w)
    end.

Definition getitem {A : Type} (l : list A) (i : Z) : M A :=
  fun w =>
    match py_getitem l i with
    | Some a => (Ok a, w)
    | None => (Raise IndexError, w)
    end.

(** [net(x)], with the weights as they are now *)
Definition call (net : Net) (x : tensor) : M tensor :=
  fun w => (Ok (net_forward (autograd w) net x), w).

(** [lib.utils.INFO] *)
Definition INFO (msg : string) : M unit := effect (print msg).

End ReCycleGAN.

Declare Scope py_scope.
Delimit Scope py_scope with py.
Notation "x <- c ;; k" := (bind c (fun x => k))
  (at level 61, c at next level, right associativity) : py_scope.
Notation "' p <- c ;; k" := (bind c (fun x => let p := x in k))
  (at level 61, p pattern, c at next level, right associativity) : py_scope.
Notation "c ;; k" := (bind c (fun _ => k))
  (at level 61, right associativity) : py_scope.
Open Scope py_scope.

Section Methods.

Context {TL : Torch}.

(** [for x in xs: acc = body(acc, x)] *)
Fixpoint foldM {A S : Type} (body : S -> A -> M S) (xs : list A) (acc : S)
  : M S :=
  match xs with
  | [] => ret acc
  | x :: rest => acc' <- body acc x ;; foldM body rest acc'
  end.

Fixpoint for_each {A : Type} (xs : list A) (body : A -> M unit) : M unit :=
  match xs with
  | [] => ret tt
  | x :: rest => body x ;; for_each rest body
  end.

Definition setInput (true_a_seq true_b_seq : list tensor) : M unit :=
  dev <- gets device ;;
  modify (set_input (map (fun x => to_device dev (t_float x)) true_a_seq)
                    (map (fun x => to_device dev (t_float x)) true_b_seq)).

(** *** forward *)

Definition dict : Type := list (string * option tensor).

Definition dict_get (d : dict) (key : string) : option (option tensor) :=
  match find (fun kv => String.eqb (fst kv) key) d with
  | Some kv => Some (snd kv)
  | None => None
  end.

Definition keys (d : dict) : list string := map fst d.

(** [str(type(x))] for a frame and for a list of frames, or None *)
Definition type_of_frame (x : option tensor) : string :=
  match x with
  | Some _ => "<class 'torch.Tensor'>"
  | None => "<class 'NoneType'>"
  end.
Definition type_of_seq (x : option (list tensor)) : string :=
  match x with
  | Some _ => "<class 'list'>"
  | None => "<class 'NoneType'>"
  end.

(** The body of the branch taken when a domain is given, lines 119-135 for
    domain A and, with the two domains exchanged, lines 141-157 for B:
    the result is (true_x, fake_y_spat, fake_y_temp, fake_y, reco_x). *)
Definition render (G_X_to_Y G_Y_to_X P_X P_Y : Net)
    (true_x : tensor) (true_x_seq : list tensor)
  : M (tensor * tensor * tensor * tensor * tensor) :=
  dev <- gets device ;;
  let true_x := to_device dev true_x in
  let true_x_seq := map (to_device dev) true_x_seq in
  t <- gets self_t ;;
  fake_y_list <-
    foldM (fun acc i =>
             frame <- getitem true_x_seq i ;;
             fake <- call G_X_to_Y frame ;;
             ret (acc ++ [fake]))
          (py_range 0 t) [] ;;
  fake_y_tuple <- lift (torch_cat fake_y_list) ;;
  true_x_tuple <- lift (torch_cat true_x_seq) ;;
  fake_y_spat <- call G_X_to_Y true_x ;;
  fake_y_temp <- call P_Y fake_y_tuple ;;
  let fake_y := t_rmul (1 # 2) (t_add fake_y_spat fake_y_temp) in
  pred_y <- call P_Y fake_y_tuple ;;
  back_x <- call G_Y_to_X pred_y ;;
  pred_x <- call P_X true_x_tuple ;;
  let reco_x := t_rmul (1 # 2) (t_add back_x pred_x) in
  ret (true_x, fake_y_spat, fake_y_temp, fake_y, reco_x).

Definition domain_error (x : string) (true_x : option tensor)
    (true_x_seq : option (list tensor)) (domain : string) : PyExc :=
  Exception
    [String.concat ""
       ["true_"; x; " type: "; type_of_frame true_x;
        " true_"; x; "_tuple type: "; type_of_seq true_x_seq; ". "];
     String.append
       "You should make sure to fill the both input if you want to utilize domain "
       (String.append domain "!")].

(** One domain of [forward]: the [if] / [elif] on the pair of inputs.  When
    neither branch is taken the locals keep what they held: the input and
    the four None of line 106. *)
Definition forward_domain (G_X_to_Y G_Y_to_X P_X P_Y : Net)
    (x domain : string)
    (true_x : option tensor) (true_x_seq : option (list tensor))
  : M (option tensor * option tensor * option tensor * option tensor
       * option tensor) :=
  match true_x, true_x_seq with
  | Some fx, Some sx =>
      ' (tx, spat, temp, fake, reco) <-
          render G_X_to_Y G_Y_to_X P_X P_Y fx sx ;;
      ret (Some tx, Some spat, Some temp, Some fake, Some reco)
  | None, None => ret (true_x, None, None, None, None)
  | _, _ => raise (domain_error x true_x true_x_seq domain)
  end.

Definition inference_notice : string :=
  "This function can be called during inference, you should call <backward> function to update the model!".

Definition all_none_error : PyExc :=
  Exception
    ["The input are all None. You should at least assign the input of one domain !"].

Definition forward (true_a true_b : option tensor)
    (true_a_seq true_b_seq : option (list tensor)) (warning : bool)
  : M dict :=
  (if warning then INFO inference_notice else ret tt) ;;
  match true_a, true_b, true_a_seq, true_b_seq with
  | None, None, None, None => raise all_none_error
  | _, _, _, _ => ret tt
  end ;;
  m <- gets (fun m => m) ;;
  ' (true_a, fake_b_spat, fake_b_temp, fake_b, reco_a) <-
      forward_domain (G_A_to_B m) (G_B_to_A m) (P_A m) (P_B m) "a" "A"
                     true_a true_a_seq ;;
  ' (true_b, fake_a_spat, fake_a_temp, fake_a, reco_b) <-
      forward_domain (G_B_to_A m) (G_A_to_B m) (P_B m) (P_A m) "b" "B"
                     true_b true_b_seq ;;
  ret [("true_a", true_a);
       ("fake_b_spat", fake_b_spat);
       ("fake_b_temp", fake_b_temp);
       ("fake_b", fake_b);
       ("reco_a", reco_a);
       ("true_b", true_b);
       ("fake_a_spat", fake_a_spat);
       ("fake_a_temp", fake_a_temp);
       ("fake_a", fake_a);
       ("reco_b", reco_b)].

(** *** The two losses *)

Definition criterion_adv : tensor -> bool -> tensor := GANLoss.
Definition criterion_l2 : tensor -> tensor -> tensor := MSELoss.

Definition updateGenerator
    (true_x_tuple fake_y_tuple true_x_next fake_y_next : tensor)
    (P_X P_Y net_Y_to_X net_D : Net) : M tensor :=
  fake_x_next <- call P_X true_x_tuple ;;
  pred_y <- call P_Y fake_y_tuple ;;
  reco_x_next <- call net_Y_to_X pred_y ;;
  fake_pred <- call net_D fake_y_next ;;
  let loss_G :=
    t_add (t_add (criterion_adv fake_pred true)
                 (t_mul (criterion_l2 reco_x_next true_x_next) 10))
          (t_mul (criterion_l2 fake_x_next true_x_next) 10) in
  ret loss_G.

Definition updateDiscriminator (fake_frame true_frame : tensor) (net_D : Net)
  : M tensor :=
  fake_pred <- call net_D (t_detach fake_frame) ;;
  true_pred <- call net_D true_frame ;;
  let loss_D :=
    t_add (criterion_adv true_pred true) (criterion_adv fake_pred false) in
  ret loss_D.

(** *** backward *)

(** Lines 217-218: [[frame.squeeze(1) for frame in torch.chunk(seq, self.T, dim = 1)]] *)
Definition frame_list (name : string)
    (seq : ReCycleGAN -> option (list tensor)) : M (list tensor) :=
  stored <- getattr name seq ;;
  T <- gets self_T ;;
  chunks <- lift (torch_chunk stored T) ;;
  ret (map squeeze1 chunks).

(** Lines 223-227: the fake frames of both domains. *)
Definition translate_frames (true_a_frame_list true_b_frame_list : list tensor)
  : M (list tensor * list tensor) :=
  T <- gets self_T ;;
  foldM (fun (acc : list tensor * list tensor) i =>
           let (fake_b_frame_list, fake_a_frame_list) := acc in
           G_A_to_B <- gets G_A_to_B ;;
           frame_a <- getitem true_a_frame_list i ;;
           fake_b <- call G_A_to_B frame_a ;;
           G_B_to_A <- gets G_B_to_A ;;
           frame_b <- getitem true_b_frame_list i ;;
           fake_a <- call G_B_to_A frame_b ;;
           ret (fake_b_frame_list ++ [fake_b], fake_a_frame_list ++ [fake_a]))
        (py_range 0 T) ([], []).

(** [torch.cat(frames[i - self.t : i], dim = 1).detach()] *)
Definition tuple_before (frames : list tensor) (i : Z) : M tensor :=
  t <- gets self_t ;;
  x <- lift (torch_cat (py_slice frames (i - t) i)) ;;
  ret (t_detach x).

(** Lines 233-244: the body of the accumulation loop at time step [i]. *)
Definition accumulate_step
    (true_a_frame_list true_b_frame_list
     fake_b_frame_list fake_a_frame_list : list tensor) (i : Z) : M unit :=
  (* generator and predictor *)
  true_a_tuple <- tuple_before true_a_frame_list i ;;
  fake_b_tuple <- tuple_before fake_b_frame_list i ;;
  true_b_tuple <- tuple_before true_b_frame_list i ;;
  fake_a_tuple <- tuple_before fake_a_frame_list i ;;
  acc <- getattr "loss_G" loss_G ;;
  true_a_i <- getitem true_a_frame_list i ;;
  true_b_i <- getitem true_b_frame_list i ;;
  m <- gets (fun m => m) ;;
  g <- updateGenerator true_a_tuple fake_b_tuple true_a_i true_b_i
                       (P_A m) (P_B m) (G_B_to_A m) (D_B m) ;;
  modify (set_loss_G (iadd acc g)) ;;
  acc <- getattr "loss_G" loss_G ;;
  true_b_i <- getitem true_b_frame_list i ;;
  true_a_i <- getitem true_a_frame_list i ;;
  m <- gets (fun m => m) ;;
  g <- updateGenerator true_b_tuple fake_a_tuple true_b_i true_a_i
                       (P_B m) (P_A m) (G_A_to_B m) (D_A m) ;;
  modify (set_loss_G (iadd acc g)) ;;
  (* discriminator *)
  buf <- gets fake_b_buffer ;;
  fake_b_i <- getitem fake_b_frame_list i ;;
  alter_fake_b <-
    (fun w => let '(x, buf', g') := push_and_pop (rng w) buf fake_b_i in
              (Ok x, with_rng g' (with_self (set_fake_b_buffer buf' (self w)) w))) ;;
  buf <- gets fake_a_buffer ;;
  fake_a_i <- getitem fake_a_frame_list i ;;
  alter_fake_a <-
    (fun w => let '(x, buf', g') := push_and_pop (rng w) buf fake_a_i in
              (Ok x, with_rng g' (with_self (set_fake_a_buffer buf' (self w)) w))) ;;
  acc <- getattr "loss_D" loss_D ;;
  true_b_i <- getitem true_b_frame_list i ;;
  D_B <- gets D_B ;;
  d <- updateDiscriminator alter_fake_b true_b_i D_B ;;
  modify (set_loss_D (iadd acc d)) ;;
  acc <- getattr "loss_D" loss_D ;;
  true_a_i <- getitem true_a_frame_list i ;;
  D_A <- gets D_A ;;
  d <- updateDiscriminator alter_fake_a true_a_i D_A ;;
  modify (set_loss_D (iadd acc d)).

(** [loss.backward()]: the accumulator is still the float 0.0 when the loop
    above ran no step, and a float has no such method. *)
Definition loss_backward (name : string) (loss : ReCycleGAN -> option pyval)
  : M unit :=
  acc <- getattr name loss ;;
  match acc with
  | PyFloat _ => raise (AttributeError "backward")
  | PyTensor x => effect (record (Backward x))
  end.

(** Lines 246-256. *)
Definition update : M unit :=
  (* generator and predictor *)
  opt <- gets optim_G ;;
  effect (record (ZeroGrad opt)) ;;
  loss_backward "loss_G" loss_G ;;
  opt <- gets optim_G ;;
  effect (record (Step opt)) ;;
  (* discriminator *)
  opt <- gets optim_D ;;
  effect (record (ZeroGrad opt)) ;;
  loss_backward "loss_D" loss_D ;;
  opt <- gets optim_D ;;
  effect (record (Step opt)).

Definition backward : M unit :=
  true_a_frame_list <- frame_list "true_a_seq" true_a_seq ;;
  true_b_frame_list <- frame_list "true_b_seq" true_b_seq ;;
  modify (set_loss_D (PyFloat 0)) ;;
  modify (set_loss_G (PyFloat 0)) ;;
  ' (fake_b_frame_list, fake_a_frame_list) <-
      translate_frames true_a_frame_list true_b_frame_list ;;
  t <- gets self_t ;;
  T <- gets self_T ;;
  for_each (py_range t T)
           (accumulate_step true_a_frame_list true_b_frame_list
                            fake_b_frame_list fake_a_frame_list) ;;
  update.

End Methods.

(** ** The properties, as functions of the inputs *)

Section Descriptions.

Context {TL : Torch}.

Variable h : history.

(** The generator loss as the description words it: the adversarial loss
    of [net_D(fake_y_next)] against the real target, plus 10 times the
    mean squared error between [net_Y_to_X(P_Y(fake_y_tuple))] and
    [true_x_next], plus 10 times the one between [P_X(true_x_tuple)] and
    [true_x_next]. *)
Definition generator_loss
    (true_x_tuple fake_y_tuple true_x_next fake_y_next : tensor)
    (P_X P_Y net_Y_to_X net_D : Net) : tensor :=
  t_add
    (t_add (GANLoss (net_forward h net_D fake_y_next) true)
           (t_mul (MSELoss (net_forward h net_Y_to_X
                              (net_forward h P_Y fake_y_tuple))
                           true_x_next) 10))
    (t_mul (MSELoss (net_forward h P_X true_x_tuple) true_x_next) 10).

(** The discriminator loss as the description words it. *)
Definition discriminator_loss (fake_frame true_frame : tensor) (net_D : Net)
  : tensor :=
  t_add (GANLoss (net_forward h net_D true_frame) true)
        (GANLoss (net_forward h net_D (t_detach fake_frame)) false).

(** [forward]: the translated tuple of the first [t] frames of a sequence,
    the fake frame, and the reconstruction, the latter once as the code
    computes it (the predictor sees the whole list) and once as the
    description words it (the predictor sees the first [t] frames). *)
Definition translated_tuple (G_X_to_Y : Net) (t : Z) (xs : list tensor)
  : tensor :=
  t_cat (map (net_forward h G_X_to_Y) (firstn (Z.to_nat t) xs)).

Definition fake_frame_of (G_X_to_Y P_Y : Net) (t : Z)
    (x : tensor) (xs : list tensor) : tensor :=
  t_rmul (1 # 2)
    (t_add (net_forward h G_X_to_Y x)
           (net_forward h P_Y (translated_tuple G_X_to_Y t xs))).

Definition reco_frame_of (G_X_to_Y G_Y_to_X P_X P_Y : Net) (t : Z)
    (xs : list tensor) : tensor :=
  t_rmul (1 # 2)
    (t_add (net_forward h G_Y_to_X
              (net_forward h P_Y (translated_tuple G_X_to_Y t xs)))
           (net_forward h P_X (t_cat xs))).

Definition reco_frame_worded (G_X_to_Y G_Y_to_X P_X P_Y : Net) (t : Z)
    (xs : list tensor) : tensor :=
  t_rmul (1 # 2)
    (t_add (net_forward h G_Y_to_X
              (net_forward h P_Y (translated_tuple G_X_to_Y t xs)))
           (net_forward h P_X (t_cat (firstn (Z.to_nat t) xs)))).

(** [backward]: what the accumulation loop holds between two steps. *)
Record Acc : Type := {
  acc_G : pyval;
  acc_D : pyval;
  buf_b : Buffer;
  buf_a : Buffer;
  acc_rng : Rng
}.

Variable m : ReCycleGAN.

(** One time step, given the two generator losses and the frames of that
    step: the fake frames go through the replay buffers, domain B first. *)
Definition step_acc (gen_A gen_B : tensor)
    (fake_b_i fake_a_i true_a_i true_b_i : tensor) (s : Acc) : Acc :=
  let popped_b := push_and_pop (acc_rng s) (buf_b s) fake_b_i in
  let alter_fake_b := fst (fst popped_b) in
  let popped_a := push_and_pop (snd popped_b) (buf_a s) fake_a_i in
  let alter_fake_a := fst (fst popped_a) in
  {| acc_G := iadd (iadd (acc_G s) gen_A) gen_B;
     acc_D := iadd (iadd (acc_D s)
                         (discriminator_loss alter_fake_b true_b_i (D_B m)))
                   (discriminator_loss alter_fake_a true_a_i (D_A m));
     buf_b := snd (fst popped_b);
     buf_a := snd (fst popped_a);
     acc_rng := snd popped_a |}.

(** The frames of the two sequences as functions of the time index. *)
Variables a b : Z -> tensor.

Definition fake_b_at (i : Z) : tensor := net_forward h (G_A_to_B m) (a i).
Definition fake_a_at (i : Z) : tensor := net_forward h (G_B_to_A m) (b i).

(** The [t] frames before step [i], concatenated and detached. *)
Definition window (f : Z -> tensor) (i : Z) : tensor :=
  t_detach (t_cat (map f (py_range (i - self_t m) i))).

Definition gen_loss_A (i : Z) : tensor :=
  generator_loss (window a i) (window fake_b_at i) (a i) (b i)
                 (P_A m) (P_B m) (G_B_to_A m) (D_B m).

Definition gen_loss_B (i : Z) : tensor :=
  generator_loss (window b i) (window fake_a_at i) (b i) (a i)
                 (P_B m) (P_A m) (G_A_to_B m) (D_A m).

Definition step_at (s : Acc) (i : Z) : Acc :=
  step_acc (gen_loss_A i) (gen_loss_B i)
           (fake_b_at i) (fake_a_at i) (a i) (b i) s.

Definition steps : list Z := py_range (self_t m) (self_T m).

(** The frames the two buffers hand back, step after step: for each step
    the pair (alter_fake_b, alter_fake_a). *)
Fixpoint replay (idx : list Z) (s : Acc) : list (tensor * tensor) :=
  match idx with
  | [] => []
  | i :: rest =>
      let popped_b := push_and_pop (acc_rng s) (buf_b s) (fake_b_at i) in
      let popped_a := push_and_pop (snd popped_b) (buf_a s) (fake_a_at i) in
      (fst (fst popped_b), fst (fst popped_a)) :: replay rest (step_at s i)
  end.

(** The two generator losses and the two discriminator losses of a step. *)
Definition gen_losses (i : Z) : list tensor := [gen_loss_A i; gen_loss_B i].

Definition disc_losses (step : Z * (tensor * tensor)) : list tensor :=
  let i := fst step in
  [discriminator_loss (fst (snd step)) (b i) (D_B m);
   discriminator_loss (snd (snd step)) (a i) (D_A m)].

End Descriptions.

Section Install.

Context {TL : Torch}.

(** A frame or a list that was passed. *)
Definition given {A : Type} (x : option A) : bool :=
  match x with Some _ => true | None => false end.

(** A list that was passed holds at least [t] frames. *)
Definition long_enough (t : Z) (xs : option (list tensor)) : Prop :=
  match xs with
  | Some l => t <= Z.of_nat (List.length l)
  | None => True
  end.

(** The ten names under which [forward] answers. *)
Definition keys_A : list string :=
  ["true_a"; "fake_b_spat"; "fake_b_temp"; "fake_b"; "reco_a"].
Definition keys_B : list string :=
  ["true_b"; "fake_a_spat"; "fake_a_temp"; "fake_a"; "reco_b"].

(** The world in which the loop has reached [s]. *)
Definition install (s : Acc) (w : World) : World :=
  {| self :=
       {| self_t := self_t (self w); self_T := self_T (self w);
          device := device (self w);
          G_A_to_B := G_A_to_B (self w); G_B_to_A := G_B_to_A (self w);
          P_A := P_A (self w); P_B := P_B (self w);
          D_A := D_A (self w); D_B := D_B (self w);
          optim_G := optim_G (self w); optim_D := optim_D (self w);
          fake_a_buffer := buf_a s; fake_b_buffer := buf_b s;
          true_a_seq := true_a_seq (self w);
          true_b_seq := true_b_seq (self w);
          loss_D := Some (acc_D s); loss_G := Some (acc_G s) |};
     autograd := autograd w;
     rng := acc_rng s;
     stdout := stdout w |}.

(** The loop starts from two float zeros and the buffers as they are. *)
Definition start (w : World) : Acc :=
  {| acc_G := PyFloat 0; acc_D := PyFloat 0;
     buf_b := fake_b_buffer (self w); buf_a := fake_a_buffer (self w);
     acc_rng := rng w |}.

(** The six calls of the update, lines 249-256. *)
Definition update_events (m : ReCycleGAN) (lg ld : tensor)
  : list (Event tensor Param) :=
  [ZeroGrad (optim_G m); Backward lg; Step (optim_G m);
   ZeroGrad (optim_D m); Backward ld; Step (optim_D m)].

(** The world after the calls [es] on the parameters. *)
Definition logged (es : history) (w : World) : World :=
  {| self := self w; autograd := autograd w ++ es; rng := rng w;
     stdout := stdout w |}.

(** A computation that leaves [self.t] and [self.T] as they are, whether
    it returns or raises. *)
Definition keeps_t_T {A : Type} (c : M A) : Prop :=
  forall w,
    self_t (self (snd (c w))) = self_t (self w) /\
    self_T (self (snd (c w))) = self_T (self w).

Definition is_step (e : Event tensor Param) : bool :=
  match e with Step _ => true | _ => false end.

End Install.

(** ** A small instance: tensors are the terms that name them *)

Module Toy.

Unset Elimination Schemes.
Inductive term : Type :=
| Frame (domain : string) (i : Z)
| Cat (xs : list term)
| Stack (xs : list term)
| Detach (x : term)
| Float (x : term)
| Add (x y : term)
| Mul (x : term) (q : Q)
| RMul (q : Q) (x : term)
| RAdd (q : Q) (x : term)
| Adv (x : term) (target : bool)
| Mse (x y : term)
| Apply (steps_so_far : nat) (net : Net) (x : term).
Set Elimination Schemes.

(** A buffer of one place: it hands back the frame it held. *)
Definition pop1 (g : nat) (buf : list term) (x : term)
  : term * list term * nat :=
  match buf with
  | [] => (x, [x], g)
  | old :: _ => (old, [x], S g)
  end.

Definition steps_in (h : list (Event term (nat * nat))) : nat :=
  List.length (filter (fun e => match e with Step _ => true | _ => false end) h).

#[local] Instance torch : Torch := {|
  tensor := term;
  t_cat := Cat;
  t_stack := Stack;
  t_detach := Detach;
  t_float := Float;
  t_add := Add;
  t_mul := Mul;
  t_rmul := RMul;
  t_radd := RAdd;
  GANLoss := Adv;
  MSELoss := Mse;
  Param := nat * nat;
  parameters := fun n => [(net_oid n, 0%nat); (net_oid n, 1%nat)];
  net_forward := fun h n x => Apply (steps_in h) n x;
  Rng := nat;
  Buffer := list term;
  ReplayBuffer := [];
  push_and_pop := pop1
|}.

Definition fa (i : Z) : term := Frame "a" i.
Definition fb (i : Z) : term := Frame "b" i.

(** A fresh model with [T] and [t], in a world where nothing happened. *)
Definition fresh (T t : Z) : World :=
  {| self := __init__ 3 3 T t 1 "cpu"; autograd := []; rng := 0%nat;
     stdout := [] |}.

(** The same after [setInput] with [n] frames in each domain. *)
Definition loaded (T t n : Z) : World :=
  snd (setInput (map fa (py_range 0 n)) (map fb (py_range 0 n)) (fresh T t)).

Definition outcome {A : Type} (r : result A * World) : result A := fst r.

(** The frames as [setInput] stores them. *)
Definition stored_a (i : Z) : term := Float (fa i).
Definition stored_b (i : Z) : term := Float (fb i).

(** The world at the head of the accumulation loop. *)
Definition looping (T t n : Z) : World :=
  install (start (loaded T t n)) (loaded T t n).

(** The four lists of frames [backward] works on, for four stored frames. *)
Definition frames_a : list term := map stored_a (py_range 0 4).
Definition frames_b : list term := map stored_b (py_range 0 4).
Definition fakes_b : list term :=
  map (fake_b_at [] (self (loaded 2 2 4)) stored_a) (py_range 0 4).
Definition fakes_a : list term :=
  map (fake_a_at [] (self (loaded 2 2 4)) stored_b) (py_range 0 4).

(** The world after the first step of the loop, step 2. *)
Definition stepped : World :=
  snd (accumulate_step frames_a frames_b fakes_b fakes_a 2 (looping 2 2 4)).

Definition stepped_G : pyval :=
  match loss_G (self stepped) with Some v => v | None => PyFloat 0 end.
Definition stepped_D : pyval :=
  match loss_D (self stepped) with Some v => v | None => PyFloat 0 end.

(** The dict [forward] answers with, or nothing when it raised. *)
Definition answer (r : result dict * World) : dict :=
  match fst r with
  | Ok d => d
  | Raise _ => []
  end.

(** A call of [forward] with domain A alone, on the frames of [xs]. *)
Definition forward_A (t : Z) (xs : list Z) : result dict * World :=
  forward (Some (fa 9)) None (Some (map fa xs)) None false (fresh 2 t).

(** A call of [forward] with both domains, two frames in each list. *)
Definition forward_AB : result dict * World :=
  forward (Some (fa 9)) (Some (fb 9)) (Some (map fa [0; 1]))
          (Some (map fb [0; 1])) true (fresh 2 2).

Definition forward_B : result dict * World :=
  forward None (Some (fb 9)) None (Some (map fb [0; 1])) false (fresh 2 2).

(** The fake frames of domain B with another frame in the last place. *)
Definition other_fakes_b : list term := firstn 3 fakes_b ++ [Frame "x" 0].
Definition other_fakes_a : list term := firstn 3 fakes_a ++ [Frame "y" 0].

(** The loaded world with losses left over from an earlier call. *)
Definition stale (T t n : Z) : World :=
  with_self (set_loss_D (PyTensor (Frame "d" 0))
               (set_loss_G (PyTensor (Frame "g" 0)) (self (loaded T t n))))
            (loaded T t n).

End Toy.

(** * Facts *)

Unset Implicit Arguments.

Section Outcomes.

Context {TL : Torch}.

(** What one domain of [forward] raises, if anything: a pair of which one
    half is None, an empty tuple when [t] is not positive, a list that is
    shorter than [t]. *)
Definition domain_fault (t : Z) (x domain : string)
    (true_x : option tensor) (true_x_seq : option (list tensor))
  : option PyExc :=
  match true_x, true_x_seq with
  | None, None => None
  | Some _, Some xs =>
      if t <=? 0 then
        Some (RuntimeError "torch.cat(): expected a non-empty list of Tensors")
      else if Z.of_nat (List.length xs) <? t then Some IndexError
      else None
  | _, _ => Some (domain_error x true_x true_x_seq domain)
  end.

(** The five entries one domain contributes to the answer. *)
Definition domain_entries (h : history) (G_X_to_Y G_Y_to_X P_X P_Y : Net)
    (t : Z) (true_x : option tensor) (true_x_seq : option (list tensor))
  : option tensor * option tensor * option tensor * option tensor
    * option tensor :=
  match true_x, true_x_seq with
  | Some x, Some xs =>
      (Some x,
       Some (net_forward h G_X_to_Y x),
       Some (net_forward h P_Y (translated_tuple h G_X_to_Y t xs)),
       Some (fake_frame_of h G_X_to_Y P_Y t x xs),
       Some (reco_frame_of h G_X_to_Y G_Y_to_X P_X P_Y t xs))
  | _, _ => (None, None, None, None, None)
  end.

Definition answer_of
    (ra rb : option tensor * option tensor * option tensor * option tensor
             * option tensor) : dict :=
  let '(true_a, fake_b_spat, fake_b_temp, fake_b, reco_a) := ra in
  let '(true_b, fake_a_spat, fake_a_temp, fake_a, reco_b) := rb in
  [("true_a", true_a);
   ("fake_b_spat", fake_b_spat);
   ("fake_b_temp", fake_b_temp);
   ("fake_b", fake_b);
   ("reco_a", reco_a);
   ("true_b", true_b);
   ("fake_a_spat", fake_a_spat);
   ("fake_a_temp", fake_a_temp);
   ("fake_a", fake_a);
   ("reco_b", reco_b)].

(** The outcome of [forward], case by case. *)
Definition forward_result (m : ReCycleGAN) (h : history)
    (ta tb : option tensor) (tas tbs : option (list tensor)) : result dict :=
  if negb (given ta || given tb || given tas || given tbs) then
    Raise all_none_error
  else
    match domain_fault (self_t m) "a" "A" ta tas with
    | Some e => Raise e
    | None =>
        match domain_fault (self_t m) "b" "B" tb tbs with
        | Some e => Raise e
        | None =>
            Ok (answer_of
                  (domain_entries h (G_A_to_B m) (G_B_to_A m) (P_A m) (P_B m)
                                  (self_t m) ta tas)
                  (domain_entries h (G_B_to_A m) (G_A_to_B m) (P_B m) (P_A m)
                                  (self_t m) tb tbs))
        end
    end.

(** A domain that is absent, or given with a list of at least [t >= 1]
    frames. *)
Definition domain_fine (t : Z) (true_x : option tensor)
    (true_x_seq : option (list tensor)) : Prop :=
  match true_x, true_x_seq with
  | None, None => True
  | Some _, Some xs => 1 <= t <= Z.of_nat (List.length xs)
  | _, _ => False
  end.

(** What [backward] and [forward] never touch: the two sizes, the device,
    the networks, the optimizers and the stored input. *)
Definition setup (m : ReCycleGAN) :=
  (self_t m, self_T m, device m,
   (G_A_to_B m, G_B_to_A m, P_A m, P_B m, D_A m, D_B m),
   (optim_G m, optim_D m),
   (true_a_seq m, true_b_seq m)).

(** Two worlds with the same setup and the same printed lines. *)
Definition same_setup (w w' : World) : Prop :=
  setup (self w') = setup (self w) /\ stdout w' = stdout w.

(** A computation that leaves the setup and what was printed as they are,
    whether it returns or raises. *)
Definition keeps_setup {A : Type} (c : M A) : Prop :=
  forall w, same_setup w (snd (c w)).

(** The [i]-th frame of a list, with [d] out of range. *)
Definition frame_of (l : list tensor) (d : tensor) (i : Z) : tensor :=
  nth (Z.to_nat i) l d.

(** A training loop: [n] calls of [backward] on the same input. *)
Fixpoint train (n : nat) : M unit :=
  match n with
  | O => ret tt
  | S k => backward ;; train k
  end.

(** The optimizer steps of [n] rounds of training. *)
Fixpoint rounds (m : ReCycleGAN) (n : nat) : list (Optimizer Param) :=
  match n with
  | O => []
  | S k => optim_G m :: optim_D m :: rounds m k
  end.

Definition stepped_optimizers (h : history) : list (Optimizer Param) :=
  flat_map (fun e => match e with Step o => [o] | _ => [] end) h.

End Outcomes.

(** ** Networks that check their channels *)

(** The size of a tensor along the channel dimension, the dimension
    [torch.cat(..., dim = 1)] works on: sizes are not negative, those of
    the pieces add up, and pieces without channels leave the data as they
    are. *)
Class Shapes (TL : Torch) : Type := {
  channels : tensor -> Z;
  mismatch : Net -> tensor -> PyExc;
  channels_nonneg : forall x, 0 <= channels x;
  channels_cat :
    forall xs, channels (t_cat xs) = fold_right Z.add 0 (map channels xs);
  cat_without_empty :
    forall xs ys,
      (forall y, In y ys -> channels y = 0) -> t_cat (xs ++ ys) = t_cat xs
}.

Section Checked.

Context {TL : Torch} {TS : Shapes TL}.

(** Modelled from the spec: the network classes of [lib.model] are
    standard components whose sources are not at hand.  A network built
    with [n_in] input channels (lines 55-60) returns on a tensor of [n_in]
    channels and raises on any other. *)
Definition call_checked (net : Net) (x : tensor) : M tensor :=
  if channels x =? net_in net then call net x else raise (mismatch net x).

(** [forward] once more, lines 106-173, with the way a network is called
    left open: [forward_with call] is [forward]. *)
Definition render_with (call_net : Net -> tensor -> M tensor)
    (G_X_to_Y G_Y_to_X P_X P_Y : Net)
    (true_x : tensor) (true_x_seq : list tensor)
  : M (tensor * tensor * tensor * tensor * tensor) :=
  dev <- gets device ;;
  let true_x := to_device dev true_x in
  let true_x_seq := map (to_device dev) true_x_seq in
  t <- gets self_t ;;
  fake_y_list <-
    foldM (fun acc i =>
             frame <- getitem true_x_seq i ;;
             fake <- call_net G_X_to_Y frame ;;
             ret (acc ++ [fake]))
          (py_range 0 t) [] ;;
  fake_y_tuple <- lift (torch_cat fake_y_list) ;;
  true_x_tuple <- lift (torch_cat true_x_seq) ;;
  fake_y_spat <- call_net G_X_to_Y true_x ;;
  fake_y_temp <- call_net P_Y fake_y_tuple ;;
  let fake_y := t_rmul (1 # 2) (t_add fake_y_spat fake_y_temp) in
  pred_y <- call_net P_Y fake_y_tuple ;;
  back_x <- call_net G_Y_to_X pred_y ;;
  pred_x <- call_net P_X true_x_tuple ;;
  let reco_x := t_rmul (1 # 2) (t_add back_x pred_x) in
  ret (true_x, fake_y_spat, fake_y_temp, fake_y, reco_x).

Definition forward_domain_with (call_net : Net -> tensor -> M tensor)
    (G_X_to_Y G_Y_to_X P_X P_Y : Net) (x domain : string)
    (true_x : option tensor) (true_x_seq : option (list tensor))
  : M (option tensor * option tensor * option tensor * option tensor
       * option tensor) :=
  match true_x, true_x_seq with
  | Some fx, Some sx =>
      ' (tx, spat, temp, fake, reco) <-
          render_with call_net G_X_to_Y G_Y_to_X P_X P_Y fx sx ;;
      ret (Some tx, Some spat, Some temp, Some fake, Some reco)
  | None, None => ret (true_x, None, None, None, None)
  | _, _ => raise (domain_error x true_x true_x_seq domain)
  end.

Definition forward_with (call_net : Net -> tensor -> M tensor)
    (true_a true_b : option tensor)
    (true_a_seq true_b_seq : option (list tensor)) (warning : bool)
  : M dict :=
  (if warning then INFO inference_notice else ret tt) ;;
  match true_a, true_b, true_a_seq, true_b_seq with
  | None, None, None, None => raise all_none_error
  | _, _, _, _ => ret tt
  end ;;
  m <- gets (fun m => m) ;;
  ' (true_a, fake_b_spat, fake_b_temp, fake_b, reco_a) <-
      forward_domain_with call_net (G_A_to_B m) (G_B_to_A m) (P_A m) (P_B m)
                          "a" "A" true_a true_a_seq ;;
  ' (true_b, fake_a_spat, fake_a_temp, fake_a, reco_b) <-
      forward_domain_with call_net (G_B_to_A m) (G_A_to_B m) (P_B m) (P_A m)
                          "b" "B" true_b true_b_seq ;;
  ret [("true_a", true_a);
       ("fake_b_spat", fake_b_spat);
       ("fake_b_temp", fake_b_temp);
       ("fake_b", fake_b);
       ("reco_a", reco_a);
       ("true_b", true_b);
       ("fake_a_spat", fake_a_spat);
       ("fake_a_temp", fake_a_temp);
       ("fake_a", fake_a);
       ("reco_b", reco_b)].

(** [forward] on networks that check their channels. *)
Definition forward_checked := forward_with call_checked.

(** What [forward] reads of the object. *)
Definition wiring (m : ReCycleGAN) :=
  (self_t m, G_A_to_B m, G_B_to_A m, P_A m, P_B m).

End Checked.

(** ** A second small instance: a tensor is the list of its channels *)

Module Vec.

Definition vec : Type := list Z.

Definition total (x : vec) : Z := fold_right Z.add 0 x.

Fixpoint pointwise (x y : vec) : vec :=
  match x, y with
  | a :: x', b :: y' => (a + b) :: pointwise x' y'
  | _, _ => []
  end.

(** A network yields as many channels as it was built to. *)
Definition run (n : Net) (x : vec) : vec :=
  match net_out n with
  | Some out => repeat (total x + Z.of_nat (net_oid n)) (Z.to_nat out)
  | None => [total x]
  end.

#[local] Instance torch : Torch := {|
  tensor := vec;
  t_cat := @List.concat Z;
  t_stack := @List.concat Z;
  t_detach := fun x => x;
  t_float := fun x => x;
  t_add := pointwise;
  t_mul := fun x _ => x;
  t_rmul := fun _ x => x;
  t_radd := fun _ x => x;
  GANLoss := fun x _ => [total x];
  MSELoss := fun x y => [total x - total y];
  Param := nat;
  parameters := fun n => [net_oid n];
  net_forward := fun _ n x => run n x;
  Rng := unit;
  Buffer := unit;
  ReplayBuffer := tt;
  push_and_pop := fun g b x => (x, b, g)
|}.

Lemma length_concat_sum (xs : list vec) :
  Z.of_nat (List.length (List.concat xs))
  = fold_right Z.add 0 (map (fun x => Z.of_nat (List.length x)) xs).
Proof.
  induction xs as [|x xs IH]; simpl; [reflexivity|].
  rewrite length_app, Nat2Z.inj_add, IH. reflexivity.
Qed.

Lemma concat_without_empty (xs ys : list vec) :
  (forall y, In y ys -> Z.of_nat (List.length y) = 0) ->
  List.concat (xs ++ ys) = List.concat xs.
Proof.
  intros H. rewrite concat_app.
  assert (List.concat ys = []) as ->; [|apply app_nil_r].
  induction ys as [|y ys IH]; simpl; [reflexivity|].
  assert (y = []) as ->
    by (destruct y; [reflexivity | specialize (H _ (or_introl eq_refl));
                                   simpl in H; lia]).
  apply IH. intros z Hz. apply H. right. exact Hz.
Qed.

#[local] Instance shapes : Shapes torch :=
  @Build_Shapes torch
    (fun x : vec => Z.of_nat (List.length x))
    (fun _ _ => RuntimeError "expected another number of channels")
    (fun x : vec => Nat2Z.is_nonneg (List.length x))
    length_concat_sum
    concat_without_empty.

(** A model built with three channels in each domain and [t = 2]. *)
Definition fresh : World :=
  {| self := __init__ 3 3 5 2 1 "cpu"; autograd := []; rng := tt;
     stdout := [] |}.

(** A frame of three channels. *)
Definition frame (k : Z) : vec := [k; k + 1; k + 2].

(** [forward] with domain A alone, on the frames of [ks]. *)
Definition forward_A (ks : list Z) : result dict * World :=
  forward_checked (Some (frame 0)) None (Some (map frame ks)) None false fresh.

Definition answer (r : result dict * World) : dict :=
  match fst r with
  | Ok d => d
  | Raise _ => []
  end.

End Vec.

Section Facts.

Context {TL : Torch}.

(** ** Running a computation *)

Lemma bind_ok {A B : Type} (c : M A) (k : A -> M B) w a w' :
  c w = (Ok a, w') -> bind c k w = k a w'.
Proof. intros H. unfold bind. rewrite H. reflexivity. Qed.

Lemma map_to_device dev (xs : list tensor) : map (to_device dev) xs = xs.
Proof. induction xs as [|x xs IH]; simpl; [|rewrite IH]; reflexivity. Qed.

(** ** Python lists *)

Lemma py_getitem_nat {A : Type} (l : list A) (k : nat) :
  py_getitem l (Z.of_nat k) = nth_error l k.
Proof.
  unfold py_getitem.
  destruct (Z.ltb_spec (Z.of_nat k) 0) as [H|_]; [lia|].
  destruct (Z.leb_spec 0 (Z.of_nat k)) as [_|H]; [|lia].
  destruct (Z.ltb_spec (Z.of_nat k) (Z.of_nat (List.length l))) as [H|H]; simpl.
  - rewrite Nat2Z.id. reflexivity.
  - symmetry. apply nth_error_None. lia.
Qed.

Lemma skipn_nth_error {A : Type} (l : list A) :
  forall k x, nth_error l k = Some x -> skipn k l = x :: skipn (S k) l.
Proof.
  induction l as [|y l IH]; intros [|k] x H; simpl in *; try discriminate.
  - injection H as ->. reflexivity.
  - apply IH. exact H.
Qed.

Lemma seq_offset :
  forall len s (c : Z),
    map (fun k => c + Z.of_nat k) (seq s len)
    = map (fun k => c + Z.of_nat s + Z.of_nat k) (seq 0 len).
Proof.
  induction len as [|len IH]; intros s c; simpl; [reflexivity|].
  f_equal; [lia|].
  rewrite (IH (S s) c), (IH 1%nat (c + Z.of_nat s)).
  apply map_ext. intros k. lia.
Qed.

Lemma firstn_of_seq :
  forall n s len, firstn n (seq s len) = seq s (Nat.min n len).
Proof.
  induction n as [|n IH]; intros s [|len]; simpl; try reflexivity.
  rewrite IH. reflexivity.
Qed.

Lemma py_range_length (lo hi : Z) :
  List.length (py_range lo hi) = Z.to_nat (hi - lo).
Proof. unfold py_range. rewrite length_map, length_seq. reflexivity. Qed.

Lemma py_getitem_family (f : Z -> tensor) (n i : Z) :
  0 <= i < n -> py_getitem (map f (py_range 0 n)) i = Some (f i).
Proof.
  intros H. rewrite <- (Z2Nat.id i) at 1 by lia.
  rewrite py_getitem_nat. unfold py_range.
  rewrite !nth_error_map, nth_error_seq.
  destruct (Nat.ltb_spec (Z.to_nat i) (Z.to_nat (n - 0))) as [_|Hn]; [|lia].
  simpl. f_equal. f_equal. lia.
Qed.

Lemma py_slice_family (f : Z -> tensor) (n lo hi : Z) :
  0 <= lo <= hi -> hi <= n ->
  py_slice (map f (py_range 0 n)) lo hi = map f (py_range lo hi).
Proof.
  intros H1 H2. unfold py_slice.
  rewrite length_map, py_range_length, Z.sub_0_r, Z2Nat.id by lia.
  destruct (Z.ltb_spec lo 0) as [H|_]; [lia|].
  destruct (Z.ltb_spec hi 0) as [H|_]; [lia|].
  rewrite !Z.min_l by lia.
  unfold py_range. rewrite !skipn_map, !firstn_map, skipn_seq, firstn_of_seq.
  rewrite Z.sub_0_r, Nat.min_l by lia.
  f_equal. rewrite seq_offset. simpl.
  apply map_ext. intros k. lia.
Qed.

(** ** Chunks *)

Lemma split_fuel_one {A : Type} (l : list A) :
  forall fuel, (List.length l <= fuel)%nat ->
    split_fuel fuel 1 l = map (fun x => [x]) l.
Proof.
  induction l as [|x l IH]; intros [|fuel] H; simpl in *; try reflexivity; try lia.
  f_equal. apply IH. lia.
Qed.

Lemma torch_chunk_frames {A : Type} (l : list A) (n : Z) :
  1 <= n -> Z.of_nat (List.length l) = n ->
  torch_chunk l n = Ok (map (fun x => [x]) l).
Proof.
  intros Hn Hl. unfold torch_chunk.
  destruct (Z.leb_spec n 0) as [H|_]; [lia|].
  rewrite Hl.
  destruct (Z.eqb_spec n 0) as [H|_]; [lia|].
  replace ((n + n - 1) / n) with 1
    by (apply Z.div_unique with (r := n - 1); lia).
  unfold torch_split. simpl. rewrite split_fuel_one by lia. reflexivity.
Qed.

Lemma squeeze_frames (l : list tensor) :
  map squeeze1 (map (fun x => [x]) l) = l.
Proof. induction l as [|x l IH]; simpl; [|rewrite IH]; reflexivity. Qed.

(** ** forward *)

Lemma translate_loop_run (G : Net) (l : list tensor) (w : World) :
  forall n k acc, (k <= List.length l)%nat ->
    foldM (fun acc i =>
             frame <- getitem l i ;;
             fake <- call G frame ;;
             ret (acc ++ [fake]))
          (map Z.of_nat (seq k n)) acc w
    = if (k + n <=? List.length l)%nat
      then (Ok (acc ++ map (net_forward (autograd w) G) (firstn n (skipn k l))), w)
      else (Raise IndexError, w).
Proof.
  induction n as [|n IH]; intros k acc Hk.
  - simpl. rewrite Nat.add_0_r.
    destruct (Nat.leb_spec k (List.length l)) as [_|H]; [|lia].
    unfold ret. rewrite app_nil_r. reflexivity.
  - simpl. unfold bind at 1. unfold bind at 1. unfold getitem at 1.
    rewrite py_getitem_nat.
    destruct (nth_error l k) as [x|] eqn:Hx.
    + assert (k < List.length l)%nat as Hlt
        by (apply nth_error_Some; rewrite Hx; discriminate).
      unfold bind at 1. unfold call at 1, ret at 1.
      rewrite IH by lia.
      replace (S k + n)%nat with (k + S n)%nat by lia.
      destruct (Nat.leb_spec (k + S n) (List.length l)) as [_|_]; [|reflexivity].
      rewrite (skipn_nth_error _ _ _ Hx). simpl.
      rewrite <- app_assoc. reflexivity.
    + apply nth_error_None in Hx.
      destruct (Nat.leb_spec (k + S n) (List.length l)) as [H|_]; [lia|].
      reflexivity.
Qed.

Lemma py_range_from_0 (t : Z) :
  py_range 0 t = map Z.of_nat (seq 0 (Z.to_nat t)).
Proof.
  unfold py_range. rewrite Z.sub_0_r. apply map_ext. intros; lia.
Qed.

Lemma render_run (G_X_to_Y G_Y_to_X P_X P_Y : Net)
    (x : tensor) (xs : list tensor) (w : World) :
  render G_X_to_Y G_Y_to_X P_X P_Y x xs w
  = let h := autograd w in
    let t := self_t (self w) in
    if (Z.to_nat t <=? List.length xs)%nat then
      if (Z.to_nat t =? 0)%nat then
        (Raise (RuntimeError "torch.cat(): expected a non-empty list of Tensors"), w)
      else
        (Ok (x, net_forward h G_X_to_Y x,
             net_forward h P_Y (translated_tuple h G_X_to_Y t xs),
             fake_frame_of h G_X_to_Y P_Y t x xs,
             reco_frame_of h G_X_to_Y G_Y_to_X P_X P_Y t xs), w)
    else (Raise IndexError, w).
Proof.
  unfold render. cbv zeta.
  unfold bind at 1, gets at 1. unfold bind at 1, gets at 1.
  rewrite map_to_device. unfold to_device.
  unfold bind at 1.
  rewrite py_range_from_0, translate_loop_run by lia.
  simpl (0 + _)%nat. simpl (skipn 0 _). simpl ([] ++ _).
  destruct (Nat.leb_spec (Z.to_nat (self_t (self w))) (List.length xs)) as [Hle|_];
    [|reflexivity].
  destruct (Nat.eqb_spec (Z.to_nat (self_t (self w))) 0) as [H0|H0].
  - rewrite H0. reflexivity.
  - destruct xs as [|x0 xs]; [simpl in Hle; lia|].
    unfold fake_frame_of, reco_frame_of, translated_tuple.
    destruct (Z.to_nat (self_t (self w))) as [|n] eqn:Hn; [congruence|].
    reflexivity.
Qed.

Lemma forward_domain_half (G_X_to_Y G_Y_to_X P_X P_Y : Net)
    (x domain : string) (tx : option tensor) (txs : option (list tensor))
    (w : World) :
  xorb (given tx) (given txs) = true ->
  forward_domain G_X_to_Y G_Y_to_X P_X P_Y x domain tx txs w
  = (Raise (domain_error x tx txs domain), w).
Proof. destruct tx, txs; simpl; intros H; try discriminate; reflexivity. Qed.

Lemma forward_domain_given (G_X_to_Y G_Y_to_X P_X P_Y : Net)
    (x domain : string) (fx : tensor) (sx : list tensor) (w : World) :
  1 <= self_t (self w) <= Z.of_nat (List.length sx) ->
  forward_domain G_X_to_Y G_Y_to_X P_X P_Y x domain (Some fx) (Some sx) w
  = let h := autograd w in
    let t := self_t (self w) in
    (Ok (Some fx, Some (net_forward h G_X_to_Y fx),
         Some (net_forward h P_Y (translated_tuple h G_X_to_Y t sx)),
         Some (fake_frame_of h G_X_to_Y P_Y t fx sx),
         Some (reco_frame_of h G_X_to_Y G_Y_to_X P_X P_Y t sx)), w).
Proof.
  intros Ht. unfold forward_domain, bind. rewrite render_run. cbv zeta.
  destruct (Nat.leb_spec (Z.to_nat (self_t (self w))) (List.length sx)) as [_|H];
    [|lia].
  destruct (Nat.eqb_spec (Z.to_nat (self_t (self w))) 0) as [H|_]; [lia|].
  reflexivity.
Qed.

(** What a domain yields when it yields something. *)
Lemma forward_domain_inv (G_X_to_Y G_Y_to_X P_X P_Y : Net)
    (x domain : string) (tx : option tensor) (txs : option (list tensor))
    (w w' : World) r :
  forward_domain G_X_to_Y G_Y_to_X P_X P_Y x domain tx txs w = (Ok r, w') ->
  w' = w /\
  ((tx = None /\ txs = None /\ r = (None, None, None, None, None)) \/
   (exists fx sx,
      tx = Some fx /\ txs = Some sx /\
      1 <= self_t (self w) <= Z.of_nat (List.length sx) /\
      r = (Some fx, Some (net_forward (autograd w) G_X_to_Y fx),
           Some (net_forward (autograd w) P_Y
                   (translated_tuple (autograd w) G_X_to_Y (self_t (self w)) sx)),
           Some (fake_frame_of (autograd w) G_X_to_Y P_Y (self_t (self w)) fx sx),
           Some (reco_frame_of (autograd w) G_X_to_Y G_Y_to_X P_X P_Y
                   (self_t (self w)) sx)))).
Proof.
  destruct tx as [fx|], txs as [sx|]; simpl; intros H; try discriminate.
  - unfold bind in H. rewrite render_run in H. cbv zeta in H.
    destruct (Nat.leb_spec (Z.to_nat (self_t (self w))) (List.length sx)) as [Hle|_];
      [|discriminate].
    destruct (Nat.eqb_spec (Z.to_nat (self_t (self w))) 0) as [_|H0];
      [discriminate|].
    injection H as <- <-. split; [reflexivity|]. right.
    exists fx, sx. repeat split; try lia.
  - injection H as <- <-. split; [reflexivity|]. left. repeat split.
Qed.

Lemma forward_run (ta tb : option tensor) (tas tbs : option (list tensor))
    (warning : bool) (w : World) :
  forward ta tb tas tbs warning w
  = let w1 := if warning then print inference_notice w else w in
    let m := self w in
    if negb (given ta || given tb || given tas || given tbs) then
      (Raise all_none_error, w1)
    else
      match forward_domain (G_A_to_B m) (G_B_to_A m) (P_A m) (P_B m)
                           "a" "A" ta tas w1 with
      | (Raise e, w2) => (Raise e, w2)
      | (Ok (true_a, fake_b_spat, fake_b_temp, fake_b, reco_a), w2) =>
          match forward_domain (G_B_to_A m) (G_A_to_B m) (P_B m) (P_A m)
                               "b" "B" tb tbs w2 with
          | (Raise e, w3) => (Raise e, w3)
          | (Ok (true_b, fake_a_spat, fake_a_temp, fake_a, reco_b), w3) =>
              (Ok [("true_a", true_a);
                   ("fake_b_spat", fake_b_spat);
                   ("fake_b_temp", fake_b_temp);
                   ("fake_b", fake_b);
                   ("reco_a", reco_a);
                   ("true_b", true_b);
                   ("fake_a_spat", fake_a_spat);
                   ("fake_a_temp", fake_a_temp);
                   ("fake_a", fake_a);
                   ("reco_b", reco_b)], w3)
          end
      end.
Proof.
  cbv zeta. unfold forward.
  assert (self (if warning then print inference_notice w else w) = self w) as Hs
    by (destruct warning; reflexivity).
  unfold bind at 1.
  replace ((if warning then INFO inference_notice else ret tt) w)
    with (Ok tt, if warning then print inference_notice w else w)
    by (destruct warning; reflexivity).
  set (w1 := if warning then print inference_notice w else w) in *.
  destruct ta, tb, tas, tbs; simpl negb; cbv iota;
    try (unfold bind at 1; unfold raise; reflexivity);
    unfold bind at 1; unfold ret at 1;
    unfold bind at 1; unfold gets at 1; rewrite Hs;
    unfold bind at 1;
    (destruct (forward_domain _ _ _ _ "a" "A" _ _ w1)
       as [[[[[[? ?] ?] ?] ?]|?] ?]; [|reflexivity]);
    unfold bind at 1;
    (destruct (forward_domain _ _ _ _ "b" "B" _ _ _)
       as [[[[[[? ?] ?] ?] ?]|?] ?]; reflexivity).
Qed.

(** ** The update *)

Lemma update_run (w : World) (lg ld : tensor) :
  loss_G (self w) = Some (PyTensor lg) ->
  loss_D (self w) = Some (PyTensor ld) ->
  update w = (Ok tt, logged (update_events (self w) lg ld) w).
Proof.
  intros HG HD.
  unfold update, loss_backward, bind, gets, effect, getattr, record; simpl.
  rewrite HG; simpl. rewrite HD; simpl.
  unfold logged, update_events. rewrite <- !app_assoc. reflexivity.
Qed.

(** While the accumulator is a float the update stops at [loss_G.backward()],
    after [zero_grad] and before any [step]. *)
Lemma update_float_G (w : World) (q : Q) :
  loss_G (self w) = Some (PyFloat q) ->
  fst (update w) = Raise (AttributeError "backward") /\
  filter is_step (autograd (snd (update w))) = filter is_step (autograd w).
Proof.
  intros HG.
  unfold update, loss_backward, bind, gets, effect, getattr, record, raise; simpl.
  rewrite HG; simpl. split; [reflexivity|].
  rewrite filter_app. simpl. apply app_nil_r.
Qed.

(** ** backward *)

Lemma py_range_In (lo hi i : Z) : In i (py_range lo hi) <-> lo <= i < hi.
Proof.
  unfold py_range. rewrite in_map_iff. split.
  - intros (k & <- & Hk). apply in_seq in Hk. lia.
  - intros H. exists (Z.to_nat (i - lo)). split; [lia|].
    apply in_seq. lia.
Qed.

Lemma torch_cat_family (f : Z -> tensor) (lo hi : Z) :
  lo < hi ->
  torch_cat (map f (py_range lo hi)) = Ok (t_cat (map f (py_range lo hi))).
Proof.
  intros H. destruct (py_range lo hi) as [|x l] eqn:E; [|reflexivity].
  apply (f_equal (@List.length Z)) in E. rewrite py_range_length in E.
  simpl in E. lia.
Qed.

Lemma frame_list_run (name : string) (sel : ReCycleGAN -> option (list tensor))
    (f : Z -> tensor) (w : World) :
  1 <= self_T (self w) ->
  sel (self w) = Some (map f (py_range 0 (self_T (self w)))) ->
  frame_list name sel w = (Ok (map f (py_range 0 (self_T (self w)))), w).
Proof.
  intros HT Hsel. unfold frame_list, bind, getattr, gets, lift, ret.
  rewrite Hsel, torch_chunk_frames, squeeze_frames; [reflexivity|exact HT|].
  rewrite length_map, py_range_length. lia.
Qed.

Lemma translate_loop_family (a b : Z -> tensor) (w : World) :
  let T := self_T (self w) in
  forall (idx : list Z) (acc_b acc_a : list tensor),
    (forall i, In i idx -> 0 <= i < T) ->
    foldM (fun (acc : list tensor * list tensor) i =>
             let (fake_b_frame_list, fake_a_frame_list) := acc in
             G_A_to_B <- gets G_A_to_B ;;
             frame_a <- getitem (map a (py_range 0 T)) i ;;
             fake_b <- call G_A_to_B frame_a ;;
             G_B_to_A <- gets G_B_to_A ;;
             frame_b <- getitem (map b (py_range 0 T)) i ;;
             fake_a <- call G_B_to_A frame_b ;;
             ret (fake_b_frame_list ++ [fake_b], fake_a_frame_list ++ [fake_a]))
          idx (acc_b, acc_a) w
    = (Ok (acc_b ++ map (fake_b_at (autograd w) (self w) a) idx,
           acc_a ++ map (fake_a_at (autograd w) (self w) b) idx), w).
Proof.
  intros T. induction idx as [|i idx IH]; intros acc_b acc_a Hin.
  - simpl. rewrite !app_nil_r. reflexivity.
  - assert (0 <= i < T) as Hi by (apply Hin; left; reflexivity).
    simpl foldM. unfold bind at 1.
    unfold bind at 1, gets at 1. unfold bind at 1, getitem at 1.
    rewrite py_getitem_family by exact Hi.
    unfold bind at 1, call at 1. unfold bind at 1, gets at 1.
    unfold bind at 1, getitem at 1.
    rewrite py_getitem_family by exact Hi.
    unfold bind at 1, call at 1. unfold ret at 1.
    rewrite IH by (intros j Hj; apply Hin; right; exact Hj).
    simpl map. rewrite <- !app_assoc. reflexivity.
Qed.

Lemma translate_frames_run (a b : Z -> tensor) (w : World) :
  let T := self_T (self w) in
  translate_frames (map a (py_range 0 T)) (map b (py_range 0 T)) w
  = (Ok (map (fake_b_at (autograd w) (self w) a) (py_range 0 T),
         map (fake_a_at (autograd w) (self w) b) (py_range 0 T)), w).
Proof.
  intros T. unfold translate_frames. unfold bind at 1, gets at 1.
  fold T. rewrite (translate_loop_family a b w).
  - reflexivity.
  - intros i Hi. apply py_range_In in Hi. exact Hi.
Qed.

Lemma tuple_before_from (frames : list tensor) (i : Z) (x : tensor) (w : World) :
  torch_cat (py_slice frames (i - self_t (self w)) i) = Ok x ->
  tuple_before frames i w = (Ok (t_detach x), w).
Proof.
  intros H. unfold tuple_before, bind, gets, lift, ret. rewrite H. reflexivity.
Qed.

(** One step of the loop, from the frames it reads. *)
Lemma accumulate_step_from
    (ta tb fb fa : list tensor) (i : Z) (s : Acc) (w0 : World)
    (cat_ta cat_fb cat_tb cat_fa a_i b_i fb_i fa_i : tensor) :
  let h := autograd w0 in
  let m := self w0 in
  let t := self_t m in
  torch_cat (py_slice ta (i - t) i) = Ok cat_ta ->
  torch_cat (py_slice fb (i - t) i) = Ok cat_fb ->
  torch_cat (py_slice tb (i - t) i) = Ok cat_tb ->
  torch_cat (py_slice fa (i - t) i) = Ok cat_fa ->
  py_getitem ta i = Some a_i ->
  py_getitem tb i = Some b_i ->
  py_getitem fb i = Some fb_i ->
  py_getitem fa i = Some fa_i ->
  accumulate_step ta tb fb fa i (install s w0)
  = (Ok tt,
     install
       (step_acc h m
          (generator_loss h (t_detach cat_ta) (t_detach cat_fb) a_i b_i
                          (P_A m) (P_B m) (G_B_to_A m) (D_B m))
          (generator_loss h (t_detach cat_tb) (t_detach cat_fa) b_i a_i
                          (P_B m) (P_A m) (G_A_to_B m) (D_A m))
          fb_i fa_i a_i b_i s)
       w0).
Proof.
  intros h m t Xa Yb Xb Ya Ia Ib Jb Ja. unfold accumulate_step.
  rewrite (bind_ok _ _ _ _ _ (tuple_before_from ta i cat_ta (install s w0) Xa)).
  rewrite (bind_ok _ _ _ _ _ (tuple_before_from fb i cat_fb (install s w0) Yb)).
  rewrite (bind_ok _ _ _ _ _ (tuple_before_from tb i cat_tb (install s w0) Xb)).
  rewrite (bind_ok _ _ _ _ _ (tuple_before_from fa i cat_fa (install s w0) Ya)).
  unfold getitem. rewrite Ia, Ib, Jb, Ja.
  unfold bind, getattr, gets, modify, ret, updateGenerator,
    updateDiscriminator, call; simpl.
  unfold step_acc, install, generator_loss, discriminator_loss; simpl.
  destruct (push_and_pop (acc_rng s) (buf_b s) fb_i) as [[x1 b1] g1]; simpl.
  destruct (push_and_pop g1 (buf_a s) fa_i) as [[x2 b2] g2]; simpl.
  reflexivity.
Qed.

Lemma install_same (w : World) (lg ld : pyval) :
  loss_G (self w) = Some lg ->
  loss_D (self w) = Some ld ->
  install {| acc_G := lg; acc_D := ld;
             buf_b := fake_b_buffer (self w); buf_a := fake_a_buffer (self w);
             acc_rng := rng w |} w
  = w.
Proof.
  destruct w as [m h g o]. destruct m. simpl. intros -> ->. reflexivity.
Qed.

Lemma accumulate_step_family (a b : Z -> tensor) (i : Z) (s : Acc) (w0 : World) :
  let h := autograd w0 in
  let m := self w0 in
  let R := py_range 0 (self_T m) in
  1 <= self_t m ->
  self_t m <= i < self_T m ->
  accumulate_step (map a R) (map b R)
                  (map (fake_b_at h m a) R) (map (fake_a_at h m b) R)
                  i (install s w0)
  = (Ok tt, install (step_at h m a b s i) w0).
Proof.
  intros h m R Ht Hi. subst h m R.
  apply (accumulate_step_from _ _ _ _ i s w0);
    try (rewrite py_slice_family, torch_cat_family by lia; reflexivity);
    apply py_getitem_family; lia.
Qed.

Lemma accumulate_loop_family (a b : Z -> tensor) (w0 : World) :
  let h := autograd w0 in
  let m := self w0 in
  let R := py_range 0 (self_T m) in
  1 <= self_t m ->
  forall (idx : list Z) (s : Acc),
    (forall i, In i idx -> self_t m <= i < self_T m) ->
    for_each idx
      (accumulate_step (map a R) (map b R)
                       (map (fake_b_at h m a) R) (map (fake_a_at h m b) R))
      (install s w0)
    = (Ok tt, install (fold_left (step_at h m a b) idx s) w0).
Proof.
  intros h m R Ht. subst h m R.
  induction idx as [|i idx IH]; intros s Hin.
  - reflexivity.
  - simpl for_each. unfold bind at 1.
    rewrite (accumulate_step_family a b i s w0 Ht)
      by (apply Hin; left; reflexivity).
    apply IH. intros j Hj. apply Hin. right. exact Hj.
Qed.

Lemma iadd_tensor (acc : pyval) (x : tensor) :
  exists y, iadd acc x = PyTensor y.
Proof. destruct acc; simpl; eexists; reflexivity. Qed.

Lemma fold_step_tensor (h : history) (m : ReCycleGAN) (a b : Z -> tensor) :
  forall (idx : list Z) (s : Acc),
    idx <> [] ->
    exists lg ld,
      acc_G (fold_left (step_at h m a b) idx s) = PyTensor lg /\
      acc_D (fold_left (step_at h m a b) idx s) = PyTensor ld.
Proof.
  intros idx s H. destruct (exists_last H) as (idx' & i & ->).
  rewrite fold_left_app. simpl.
  set (s' := fold_left _ idx' s). unfold step_at, step_acc. simpl.
  destruct (iadd_tensor (iadd (acc_G s') (gen_loss_A h m a b i))
                        (gen_loss_B h m a b i)) as [lg ->].
  match goal with
  | |- context [iadd (iadd (acc_D s') ?x) ?y] =>
      destruct (iadd_tensor (iadd (acc_D s') x) y) as [ld ->]
  end.
  exists lg, ld. split; reflexivity.
Qed.

Lemma acc_G_fold (h : history) (m : ReCycleGAN) (a b : Z -> tensor) :
  forall (idx : list Z) (s : Acc),
    acc_G (fold_left (step_at h m a b) idx s)
    = fold_left iadd (flat_map (gen_losses h m a b) idx) (acc_G s).
Proof.
  induction idx as [|i idx IH]; intros s; simpl; [reflexivity|].
  rewrite IH. reflexivity.
Qed.

Lemma acc_D_fold (h : history) (m : ReCycleGAN) (a b : Z -> tensor) :
  forall (idx : list Z) (s : Acc),
    acc_D (fold_left (step_at h m a b) idx s)
    = fold_left iadd
        (flat_map (disc_losses h m a b) (combine idx (replay h m a b idx s)))
        (acc_D s).
Proof.
  induction idx as [|i idx IH]; intros s; simpl; [reflexivity|].
  rewrite IH. reflexivity.
Qed.

Lemma steps_nonempty (m : ReCycleGAN) : self_t m < self_T m -> steps m <> [].
Proof.
  intros H E. apply (f_equal (@List.length Z)) in E.
  unfold steps in E. rewrite py_range_length in E. simpl in E. lia.
Qed.

(** The whole of [backward] on two sequences of [self.T] frames. *)
Lemma backward_run (a b : Z -> tensor) (w : World) :
  1 <= self_t (self w) ->
  self_t (self w) < self_T (self w) ->
  true_a_seq (self w) = Some (map a (py_range 0 (self_T (self w)))) ->
  true_b_seq (self w) = Some (map b (py_range 0 (self_T (self w)))) ->
  exists lg ld,
    acc_G (fold_left (step_at (autograd w) (self w) a b) (steps (self w)) (start w))
      = PyTensor lg /\
    acc_D (fold_left (step_at (autograd w) (self w) a b) (steps (self w)) (start w))
      = PyTensor ld /\
    backward w
    = (Ok tt,
       logged (update_events (self w) lg ld)
         (install (fold_left (step_at (autograd w) (self w) a b)
                             (steps (self w)) (start w)) w)).
Proof.
  intros Ht HT Ha Hb.
  destruct (fold_step_tensor (autograd w) (self w) a b (steps (self w)) (start w)
              (steps_nonempty _ HT)) as (lg & ld & HG & HD).
  exists lg, ld. split; [exact HG|]. split; [exact HD|].
  unfold backward.
  rewrite (bind_ok _ _ _ _ _
             (frame_list_run "true_a_seq" true_a_seq a w ltac:(lia) Ha)).
  rewrite (bind_ok _ _ _ _ _
             (frame_list_run "true_b_seq" true_b_seq b w ltac:(lia) Hb)).
  unfold bind at 1, modify at 1. unfold bind at 1, modify at 1.
  match goal with
  | |- bind _ _ ?W = _ => change W with (install (start w) w)
  end.
  pose proof (translate_frames_run a b (install (start w) w)) as Htr.
  cbv zeta in Htr.
  change (self_T (self (install (start w) w))) with (self_T (self w)) in Htr.
  rewrite (bind_ok _ _ _ _ _ Htr). cbv beta iota zeta.
  unfold bind at 1, gets at 1. unfold bind at 1, gets at 1.
  change (self_t (self (install (start w) w))) with (self_t (self w)).
  change (self_T (self (install (start w) w))) with (self_T (self w)).
  unfold bind at 1.
  change (fake_b_at (autograd (install (start w) w)) (self (install (start w) w)) a)
    with (fake_b_at (autograd w) (self w) a).
  change (fake_a_at (autograd (install (start w) w)) (self (install (start w) w)) b)
    with (fake_a_at (autograd w) (self w) b).
  rewrite (accumulate_loop_family a b w Ht (py_range (self_t (self w)) (self_T (self w))))
    by (intros i Hi; apply py_range_In in Hi; exact Hi).
  fold (steps (self w)).
  rewrite (update_run _ lg ld); [reflexivity| |]; simpl; f_equal; assumption.
Qed.

(** ** What never changes *)

Lemma keeps_ret {A : Type} (a : A) : keeps_t_T (ret a).
Proof. intros w. split; reflexivity. Qed.

Lemma keeps_raise {A : Type} (e : PyExc) : keeps_t_T (@raise _ A e).
Proof. intros w. split; reflexivity. Qed.

Lemma keeps_lift {A : Type} (r : result A) : keeps_t_T (lift r).
Proof. intros w. split; reflexivity. Qed.

Lemma keeps_gets {A : Type} (f : ReCycleGAN -> A) : keeps_t_T (gets f).
Proof. intros w. split; reflexivity. Qed.

Lemma keeps_getattr {A : Type} (name : string) (f : ReCycleGAN -> option A) :
  keeps_t_T (getattr name f).
Proof. intros w. unfold getattr. destruct (f (self w)); split; reflexivity. Qed.

Lemma keeps_getitem {A : Type} (l : list A) (i : Z) : keeps_t_T (getitem l i).
Proof. intros w. unfold getitem. destruct (py_getitem l i); split; reflexivity. Qed.

Lemma keeps_call (net : Net) (x : tensor) : keeps_t_T (call net x).
Proof. intros w. split; reflexivity. Qed.

Lemma keeps_INFO (msg : string) : keeps_t_T (INFO msg).
Proof. intros w. split; reflexivity. Qed.

Lemma keeps_record (e : Event tensor Param) : keeps_t_T (effect (record e)).
Proof. intros w. split; reflexivity. Qed.

Lemma keeps_set_input (a b : list tensor) : keeps_t_T (modify (set_input a b)).
Proof. intros w. split; reflexivity. Qed.

Lemma keeps_set_loss_D (v : pyval) : keeps_t_T (modify (set_loss_D v)).
Proof. intros w. split; reflexivity. Qed.

Lemma keeps_set_loss_G (v : pyval) : keeps_t_T (modify (set_loss_G v)).
Proof. intros w. split; reflexivity. Qed.

Lemma keeps_pop_b (buf : Buffer) (x : tensor) :
  keeps_t_T
    (fun w => let '(y, buf', g') := push_and_pop (rng w) buf x in
              (Ok y, with_rng g' (with_self (set_fake_b_buffer buf' (self w)) w))).
Proof.
  intros w. destruct (push_and_pop (rng w) buf x) as [[y b'] g']. split; reflexivity.
Qed.

Lemma keeps_pop_a (buf : Buffer) (x : tensor) :
  keeps_t_T
    (fun w => let '(y, buf', g') := push_and_pop (rng w) buf x in
              (Ok y, with_rng g' (with_self (set_fake_a_buffer buf' (self w)) w))).
Proof.
  intros w. destruct (push_and_pop (rng w) buf x) as [[y b'] g']. split; reflexivity.
Qed.

Lemma keeps_bind {A B : Type} (c : M A) (k : A -> M B) :
  keeps_t_T c -> (forall a, keeps_t_T (k a)) -> keeps_t_T (bind c k).
Proof.
  intros Hc Hk w. unfold bind. specialize (Hc w).
  destruct (c w) as [[a|e] w1]; simpl in Hc.
  - destruct (Hk a w1) as [H1 H2]. rewrite H1, H2. exact Hc.
  - exact Hc.
Qed.

Lemma keeps_foldM {A S : Type} (body : S -> A -> M S) :
  (forall s x, keeps_t_T (body s x)) ->
  forall xs acc, keeps_t_T (foldM body xs acc).
Proof.
  intros Hb. induction xs as [|x xs IH]; intros acc; simpl.
  - apply keeps_ret.
  - apply keeps_bind; [apply Hb | intros s; apply IH].
Qed.

Lemma keeps_for_each {A : Type} (body : A -> M unit) :
  (forall x, keeps_t_T (body x)) -> forall xs, keeps_t_T (for_each xs body).
Proof.
  intros Hb. induction xs as [|x xs IH]; simpl.
  - apply keeps_ret.
  - apply keeps_bind; [apply Hb | intros _; exact IH].
Qed.

Create HintDb keeps.
#[local] Hint Resolve keeps_ret keeps_raise keeps_lift keeps_gets keeps_getattr
  keeps_getitem keeps_call keeps_INFO keeps_record keeps_set_input
  keeps_set_loss_D keeps_set_loss_G keeps_pop_a keeps_pop_b : keeps.

(** Takes a computation apart along its binds. *)
Ltac keeps_step :=
  first
    [ solve [auto with keeps]
    | apply keeps_bind; [|intros]
    | apply keeps_foldM; intros
    | apply keeps_for_each; intros
    | match goal with
      | |- keeps_t_T (match ?x with _ => _ end) => destruct x
      | |- keeps_t_T (let (_, _) := ?x in _) => destruct x
      end ].

Lemma keeps_setInput (a b : list tensor) : keeps_t_T (setInput a b).
Proof. unfold setInput. repeat keeps_step. Qed.

Lemma keeps_updateGenerator (x1 x2 x3 x4 : tensor) (n1 n2 n3 n4 : Net) :
  keeps_t_T (updateGenerator x1 x2 x3 x4 n1 n2 n3 n4).
Proof. unfold updateGenerator. repeat keeps_step. Qed.

Lemma keeps_updateDiscriminator (x1 x2 : tensor) (n : Net) :
  keeps_t_T (updateDiscriminator x1 x2 n).
Proof. unfold updateDiscriminator. repeat keeps_step. Qed.

Lemma keeps_forward (ta tb : option tensor) (tas tbs : option (list tensor))
    (warning : bool) :
  keeps_t_T (forward ta tb tas tbs warning).
Proof.
  unfold forward, forward_domain, render. repeat keeps_step.
Qed.

Lemma keeps_backward : keeps_t_T backward.
Proof.
  pose proof keeps_updateGenerator. pose proof keeps_updateDiscriminator.
  unfold backward, frame_list, translate_frames, accumulate_step, tuple_before,
    update, loss_backward.
  repeat keeps_step.
Qed.

(** ** The constructor *)

(** C1: the constructor builds two spatial translators (A to B and B to A,
    with the channel counts in that order), two temporal predictors whose
    input has [t] times the channels of their domain, two discriminators,
    one per domain, and two replay buffers; these six networks are all the
    sub-modules there are, and they are six different objects. *)
Theorem constructor_builds_modules (A_channel B_channel T t r : Z) (dev : string) :
  let m := __init__ A_channel B_channel T t r dev in
  filter is_translator (children m) = [G_A_to_B m; G_B_to_A m] /\
  filter is_predictor (children m) = [P_A m; P_B m] /\
  filter is_discriminator (children m) = [D_A m; D_B m] /\
  (net_in (G_A_to_B m) = A_channel /\ net_out (G_A_to_B m) = Some B_channel) /\
  (net_in (G_B_to_A m) = B_channel /\ net_out (G_B_to_A m) = Some A_channel) /\
  net_in (P_A m) = t * A_channel /\
  net_in (P_B m) = t * B_channel /\
  net_in (D_A m) = A_channel /\
  net_in (D_B m) = B_channel /\
  buffers m = [ReplayBuffer; ReplayBuffer] /\
  NoDup (map net_oid (children m)).
Proof.
  cbv zeta. repeat split.
  cbn. repeat constructor; cbn; intuition discriminate.
Qed.

(** C7: there are two optimizers.  [optim_G] is Adam with learning rate
    0.001 over the parameters of the two translators and the two
    predictors, chained in that order; [optim_D] is Adam with learning rate
    0.0001 over those of the two discriminators; the two groups split the
    sub-modules; and an update with tensor losses is one [step] of
    [optim_G], then one of [optim_D]. *)
Theorem optimizers_partition (A_channel B_channel T t r : Z) (dev : string) :
  let m := __init__ A_channel B_channel T t r dev in
  let group_G := [G_A_to_B m; G_B_to_A m; P_A m; P_B m] in
  let group_D := [D_A m; D_B m] in
  optim_G m = Adam (flat_map parameters group_G) (1 # 1000) /\
  optim_D m = Adam (flat_map parameters group_D) (1 # 10000) /\
  children m = group_G ++ group_D /\
  List.length (optimizers m) = 2%nat /\
  forall (w : World) (lg ld : tensor),
    let w0 := with_self (set_loss_D (PyTensor ld) (set_loss_G (PyTensor lg) m)) w in
    fst (update w0) = Ok tt /\
    self (snd (update w0)) = self w0 /\
    autograd (snd (update w0)) =
      autograd w ++ [ZeroGrad (optim_G m); Backward lg; Step (optim_G m);
                     ZeroGrad (optim_D m); Backward ld; Step (optim_D m)].
Proof.
  cbv zeta. repeat split.
  rewrite (update_run _ lg ld) by reflexivity. reflexivity.
Qed.

(** ** The two losses *)

(** C2: [updateGenerator] returns the adversarial loss of
    [net_D(fake_y_next)] against the real target, plus 10 times the mean
    squared error between [net_Y_to_X(P_Y(fake_y_tuple))] and [true_x_next],
    plus 10 times the one between [P_X(true_x_tuple)] and [true_x_next]; it
    raises nothing and changes nothing. *)
Theorem updateGenerator_loss
    (true_x_tuple fake_y_tuple true_x_next fake_y_next : tensor)
    (P_X P_Y net_Y_to_X net_D : Net) (w : World) :
  updateGenerator true_x_tuple fake_y_tuple true_x_next fake_y_next
                  P_X P_Y net_Y_to_X net_D w
  = (Ok (generator_loss (autograd w) true_x_tuple fake_y_tuple true_x_next
                        fake_y_next P_X P_Y net_Y_to_X net_D), w).
Proof. reflexivity. Qed.

(** C3: [updateDiscriminator] returns the adversarial loss of
    [net_D(true_frame)] against the real target plus that of [net_D] on the
    detached fake frame against the fake target. *)
Theorem updateDiscriminator_loss
    (fake_frame true_frame : tensor) (net_D : Net) (w : World) :
  updateDiscriminator fake_frame true_frame net_D w
  = (Ok (discriminator_loss (autograd w) fake_frame true_frame net_D), w).
Proof. reflexivity. Qed.

(** ** forward *)

Lemma autograd_noticed (warning : bool) (w : World) :
  autograd (if warning then print inference_notice w else w) = autograd w /\
  self (if warning then print inference_notice w else w) = self w.
Proof. destruct warning; split; reflexivity. Qed.

(** C8, as the code has it: [forward] raises when the four inputs are all
    None, when exactly one of [true_a] and [true_a_seq] is None, and when
    that pair is consistent but exactly one of [true_b] and [true_b_seq] is
    None; in every other case it returns a dict, provided [t] is at least 1
    and each list that was passed holds at least [t] frames. *)
Theorem forward_raises_or_returns
    (ta tb : option tensor) (tas tbs : option (list tensor))
    (warning : bool) (w : World) :
  let run := fst (forward ta tb tas tbs warning w) in
  (given ta || given tb || given tas || given tbs = false ->
   run = Raise all_none_error) /\
  (xorb (given ta) (given tas) = true ->
   run = Raise (domain_error "a" ta tas "A")) /\
  (xorb (given ta) (given tas) = false ->
   xorb (given tb) (given tbs) = true ->
   exists e, run = Raise e) /\
  (given ta || given tb || given tas || given tbs = true ->
   xorb (given ta) (given tas) = false ->
   xorb (given tb) (given tbs) = false ->
   1 <= self_t (self w) ->
   long_enough (self_t (self w)) tas ->
   long_enough (self_t (self w)) tbs ->
   exists d, run = Ok d).
Proof.
  cbv zeta. rewrite forward_run. cbv zeta.
  destruct (autograd_noticed warning w) as [Hh Hs].
  set (w1 := if warning then print inference_notice w else w) in *.
  repeat split.
  - intros H. rewrite H. reflexivity.
  - intros H.
    assert (given ta || given tb || given tas || given tbs = true) as ->
      by (destruct ta, tb, tas, tbs; simpl in *; congruence).
    simpl negb. cbv iota. rewrite forward_domain_half by exact H. reflexivity.
  - intros HA HB.
    assert (given ta || given tb || given tas || given tbs = true) as ->
      by (destruct ta, tb, tas, tbs; simpl in *; congruence).
    simpl negb. cbv iota.
    destruct (forward_domain _ _ _ _ "a" "A" ta tas w1)
      as [[[[[[a1 a2] a3] a4] a5]|e] w2]; [|exists e; reflexivity].
    rewrite forward_domain_half by exact HB. eexists. reflexivity.
  - intros Hany HA HB Ht La Lb. rewrite Hany. simpl negb. cbv iota.
    assert (forall G1 G2 P1 P2 x dom tx txs w0,
              self_t (self w0) = self_t (self w) ->
              xorb (given tx) (given txs) = false ->
              long_enough (self_t (self w)) txs ->
              exists r, forward_domain G1 G2 P1 P2 x dom tx txs w0 = (Ok r, w0))
      as Hdom.
    { intros G1 G2 P1 P2 x dom [fx|] [sx|] w0 Ew Hx Hl; simpl in Hx, Hl;
        try discriminate.
      - rewrite forward_domain_given by (rewrite Ew; lia). eexists. reflexivity.
      - eexists. reflexivity. }
    destruct (Hdom (G_A_to_B (self w)) (G_B_to_A (self w)) (P_A (self w))
                   (P_B (self w)) "a" "A" ta tas w1) as [ra ->];
      [rewrite Hs; reflexivity | exact HA | exact La |].
    destruct ra as [[[[a1 a2] a3] a4] a5].
    destruct (Hdom (G_B_to_A (self w)) (G_A_to_B (self w)) (P_B (self w))
                   (P_A (self w)) "b" "B" tb tbs w1) as [rb ->];
      [rewrite Hs; reflexivity | exact HB | exact Lb |].
    destruct rb as [[[[b1 b2] b3] b4] b5].
    eexists. reflexivity.
Qed.

(** C9: when [forward] returns, the dict has exactly the ten keys 'true_a',
    'fake_b_spat', 'fake_b_temp', 'fake_b', 'reco_a', 'true_b',
    'fake_a_spat', 'fake_a_temp', 'fake_a', 'reco_b'; each of the first five
    is None exactly when domain A was not given, each of the last five
    exactly when domain B was not given. *)
Theorem forward_dict_shape
    (ta tb : option tensor) (tas tbs : option (list tensor))
    (warning : bool) (w w' : World) (d : dict) :
  forward ta tb tas tbs warning w = (Ok d, w') ->
  keys d = keys_A ++ keys_B /\
  (forall k, In k keys_A ->
     (exists v, dict_get d k = Some v) /\
     (dict_get d k = Some None <-> ta = None /\ tas = None)) /\
  (forall k, In k keys_B ->
     (exists v, dict_get d k = Some v) /\
     (dict_get d k = Some None <-> tb = None /\ tbs = None)).
Proof.
  intros H. rewrite forward_run in H. cbv zeta in H.
  set (w1 := if warning then print inference_notice w else w) in *.
  destruct (negb _); [discriminate|].
  destruct (forward_domain _ _ _ _ "a" "A" ta tas w1)
    as [[[[[[a1 a2] a3] a4] a5]|e] w2] eqn:HA; [|discriminate].
  destruct (forward_domain _ _ _ _ "b" "B" tb tbs w2)
    as [[[[[[b1 b2] b3] b4] b5]|e] w3] eqn:HB; [|discriminate].
  injection H as <- <-.
  apply forward_domain_inv in HA. destruct HA as [_ HA].
  apply forward_domain_inv in HB. destruct HB as [_ HB].
  split; [reflexivity|]. split.
  - intros k Hk.
    destruct HA as [(-> & -> & E)|(fx & sx & -> & -> & _ & E)];
      injection E as -> -> -> -> ->;
      simpl in Hk;
      intuition (subst; unfold dict_get in *; simpl in *; eauto;
                 try discriminate; try congruence).
  - intros k Hk.
    destruct HB as [(-> & -> & E)|(fy & sy & -> & -> & _ & E)];
      injection E as -> -> -> -> ->;
      simpl in Hk;
      intuition (subst; unfold dict_get in *; simpl in *; eauto;
                 try discriminate; try congruence).
Qed.

(** ** backward *)

(** C4, as the code has it: on a model with [1 <= self.t < self.T] (built
    with [t >= 1] and [T >= 1]) whose two stored sequences hold exactly
    [self.T] frames, [backward] splits each sequence into its [self.T]
    frames, translates every frame to the other domain, adds to [loss_G]
    and to [loss_D], for each step [i] from [self.t] to [self.T - 1], the
    loss of the direction A to B and that of the direction B to A, and then
    does [zero_grad], [backward] and exactly one [step] on [optim_G],
    followed by the same on [optim_D]. *)
Theorem backward_accumulates_and_steps (a b : Z -> tensor) (w : World) :
  let m := self w in
  let h := autograd w in
  let frames := py_range 0 (self_T m) in
  1 <= self_t m ->
  self_t m < self_T m ->
  true_a_seq m = Some (map a frames) ->
  true_b_seq m = Some (map b frames) ->
  (* the split *)
  frame_list "true_a_seq" true_a_seq w = (Ok (map a frames), w) /\
  frame_list "true_b_seq" true_b_seq w = (Ok (map b frames), w) /\
  Z.of_nat (List.length (map a frames)) = self_T m /\
  Z.of_nat (List.length (map b frames)) = self_T m /\
  (* the translation *)
  translate_frames (map a frames) (map b frames) (install (start w) w)
  = (Ok (map (fake_b_at h m a) frames, map (fake_a_at h m b) frames),
     install (start w) w) /\
  (* the accumulation and the update *)
  exists lg ld,
    fold_left iadd (flat_map (gen_losses h m a b) (steps m)) (PyFloat 0)
      = PyTensor lg /\
    fold_left iadd
      (flat_map (disc_losses h m a b)
                (combine (steps m) (replay h m a b (steps m) (start w))))
      (PyFloat 0)
      = PyTensor ld /\
    fst (backward w) = Ok tt /\
    loss_G (self (snd (backward w))) = Some (PyTensor lg) /\
    loss_D (self (snd (backward w))) = Some (PyTensor ld) /\
    autograd (snd (backward w))
      = h ++ [ZeroGrad (optim_G m); Backward lg; Step (optim_G m);
              ZeroGrad (optim_D m); Backward ld; Step (optim_D m)].
Proof.
  intros m h frames Ht HT Ha Hb. subst m h frames.
  split; [apply frame_list_run; [lia | exact Ha]|].
  split; [apply frame_list_run; [lia | exact Hb]|].
  split; [rewrite length_map, py_range_length; lia|].
  split; [rewrite length_map, py_range_length; lia|].
  split; [exact (translate_frames_run a b (install (start w) w))|].
  destruct (backward_run a b w Ht HT Ha Hb) as (lg & ld & HG & HD & Hrun).
  exists lg, ld.
  split; [rewrite <- HG; symmetry; apply acc_G_fold|].
  split; [rewrite <- HD; symmetry; apply acc_D_fold|].
  rewrite Hrun. unfold logged, install, update_events; simpl.
  rewrite HG, HD. repeat split.
Qed.

(** C6: at a time step of [backward], the discriminator loss of each
    domain is computed on the frame that [push_and_pop] of that domain's
    replay buffer hands back for the current fake frame ([alter_fake_b] for
    [D_B], then [alter_fake_a] for [D_A]), and the buffers move on; the two
    generator losses of the step are computed from the true frames and the
    fake frames themselves, whatever the buffers and the random generator
    hold. *)
Theorem step_reads_buffers
    (ta tb fb fa : list tensor) (i : Z) (w : World) (lg ld : pyval)
    (cat_ta cat_fb cat_tb cat_fa a_i b_i fb_i fa_i : tensor) :
  let h := autograd w in
  let m := self w in
  let t := self_t m in
  loss_G m = Some lg ->
  loss_D m = Some ld ->
  torch_cat (py_slice ta (i - t) i) = Ok cat_ta ->
  torch_cat (py_slice fb (i - t) i) = Ok cat_fb ->
  torch_cat (py_slice tb (i - t) i) = Ok cat_tb ->
  torch_cat (py_slice fa (i - t) i) = Ok cat_fa ->
  py_getitem ta i = Some a_i ->
  py_getitem tb i = Some b_i ->
  py_getitem fb i = Some fb_i ->
  py_getitem fa i = Some fa_i ->
  let popped_b := push_and_pop (rng w) (fake_b_buffer m) fb_i in
  let alter_fake_b := fst (fst popped_b) in
  let popped_a := push_and_pop (snd popped_b) (fake_a_buffer m) fa_i in
  let alter_fake_a := fst (fst popped_a) in
  let gen_A := generator_loss h (t_detach cat_ta) (t_detach cat_fb) a_i b_i
                              (P_A m) (P_B m) (G_B_to_A m) (D_B m) in
  let gen_B := generator_loss h (t_detach cat_tb) (t_detach cat_fa) b_i a_i
                              (P_B m) (P_A m) (G_A_to_B m) (D_A m) in
  let w' := snd (accumulate_step ta tb fb fa i w) in
  fst (accumulate_step ta tb fb fa i w) = Ok tt /\
  loss_D (self w')
    = Some (iadd (iadd ld (discriminator_loss h alter_fake_b b_i (D_B m)))
                 (discriminator_loss h alter_fake_a a_i (D_A m))) /\
  fake_b_buffer (self w') = snd (fst popped_b) /\
  fake_a_buffer (self w') = snd (fst popped_a) /\
  rng w' = snd popped_a /\
  loss_G (self w') = Some (iadd (iadd lg gen_A) gen_B) /\
  forall (buf_b' buf_a' : Buffer) (g' : Rng),
    loss_G (self (snd (accumulate_step ta tb fb fa i
                         (with_rng g'
                            (with_self (set_fake_a_buffer buf_a'
                                          (set_fake_b_buffer buf_b' m)) w)))))
    = Some (iadd (iadd lg gen_A) gen_B).
Proof.
  intros h m t HG HD Xa Yb Xb Ya Ia Ib Jb Ja. cbv zeta. subst h m t.
  pose proof (accumulate_step_from ta tb fb fa i
                {| acc_G := lg; acc_D := ld;
                   buf_b := fake_b_buffer (self w);
                   buf_a := fake_a_buffer (self w); acc_rng := rng w |} w
                cat_ta cat_fb cat_tb cat_fa a_i b_i fb_i fa_i
                Xa Yb Xb Ya Ia Ib Jb Ja) as Hrun.
  cbv zeta in Hrun. rewrite (install_same w lg ld HG HD) in Hrun.
  rewrite Hrun. simpl.
  repeat split.
  intros buf_b' buf_a' g'.
  set (w2 := with_rng g' (with_self (set_fake_a_buffer buf_a'
                                       (set_fake_b_buffer buf_b' (self w))) w)).
  pose proof (accumulate_step_from ta tb fb fa i
                {| acc_G := lg; acc_D := ld;
                   buf_b := fake_b_buffer (self w2);
                   buf_a := fake_a_buffer (self w2); acc_rng := rng w2 |} w2
                cat_ta cat_fb cat_tb cat_fa a_i b_i fb_i fa_i
                Xa Yb Xb Ya Ia Ib Jb Ja) as Hrun2.
  cbv zeta in Hrun2. rewrite (install_same w2 lg ld HG HD) in Hrun2.
  rewrite Hrun2. reflexivity.
Qed.

End Facts.

(** * Further facts *)

Section MoreFacts.

Context {TL : Torch}.

(** ** forward, outcome by outcome *)

Lemma render_world (G_X_to_Y G_Y_to_X P_X P_Y : Net)
    (x : tensor) (xs : list tensor) (w : World) :
  snd (render G_X_to_Y G_Y_to_X P_X P_Y x xs w) = w.
Proof.
  rewrite render_run. cbv zeta.
  destruct (_ <=? _)%nat; [|reflexivity].
  destruct (_ =? _)%nat; reflexivity.
Qed.

Lemma forward_domain_world (G_X_to_Y G_Y_to_X P_X P_Y : Net)
    (x domain : string) (tx : option tensor) (txs : option (list tensor))
    (w : World) :
  snd (forward_domain G_X_to_Y G_Y_to_X P_X P_Y x domain tx txs w) = w.
Proof.
  destruct tx as [fx|], txs as [sx|]; try reflexivity.
  unfold forward_domain, bind.
  pose proof (render_world G_X_to_Y G_Y_to_X P_X P_Y fx sx w) as H.
  destruct (render G_X_to_Y G_Y_to_X P_X P_Y fx sx w)
    as [[[[[[? ?] ?] ?] ?]|?] ?]; simpl in *; exact H.
Qed.

Lemma forward_domain_outcome (G_X_to_Y G_Y_to_X P_X P_Y : Net)
    (x domain : string) (tx : option tensor) (txs : option (list tensor))
    (w : World) :
  fst (forward_domain G_X_to_Y G_Y_to_X P_X P_Y x domain tx txs w)
  = match domain_fault (self_t (self w)) x domain tx txs with
    | Some e => Raise e
    | None => Ok (domain_entries (autograd w) G_X_to_Y G_Y_to_X P_X P_Y
                                 (self_t (self w)) tx txs)
    end.
Proof.
  destruct tx as [fx|], txs as [sx|]; try reflexivity.
  unfold forward_domain, bind, domain_fault, domain_entries.
  rewrite render_run. cbv zeta.
  destruct (Z.leb_spec (self_t (self w)) 0) as [H0|H0].
  - replace (Z.to_nat (self_t (self w))) with 0%nat by lia. reflexivity.
  - destruct (Z.ltb_spec (Z.of_nat (List.length sx)) (self_t (self w))) as [Hl|Hl].
    + destruct (Nat.leb_spec (Z.to_nat (self_t (self w))) (List.length sx))
        as [H|_]; [lia | reflexivity].
    + destruct (Nat.leb_spec (Z.to_nat (self_t (self w))) (List.length sx))
        as [_|H]; [|lia].
      destruct (Nat.eqb_spec (Z.to_nat (self_t (self w))) 0) as [H|_]; [lia|].
      reflexivity.
Qed.

(** [forward] as a whole: its outcome, and the world it leaves. *)
Lemma forward_outcome (ta tb : option tensor) (tas tbs : option (list tensor))
    (warning : bool) (w : World) :
  forward ta tb tas tbs warning w
  = (forward_result (self w) (autograd w) ta tb tas tbs,
     if warning then print inference_notice w else w).
Proof.
  rewrite forward_run. cbv zeta. unfold forward_result.
  destruct (autograd_noticed warning w) as [Hh Hs].
  set (w1 := if warning then print inference_notice w else w) in *.
  destruct (negb _); [reflexivity|].
  pose proof (forward_domain_world (G_A_to_B (self w)) (G_B_to_A (self w))
                (P_A (self w)) (P_B (self w)) "a" "A" ta tas w1) as HwA.
  pose proof (forward_domain_outcome (G_A_to_B (self w)) (G_B_to_A (self w))
                (P_A (self w)) (P_B (self w)) "a" "A" ta tas w1) as HoA.
  rewrite Hh, Hs in HoA.
  destruct (forward_domain _ _ _ _ "a" "A" ta tas w1) as [ra w2].
  simpl in HwA, HoA. subst w2 ra.
  destruct (domain_fault (self_t (self w)) "a" "A" ta tas) as [e|];
    [reflexivity|].
  destruct (domain_entries (autograd w) _ _ _ _ _ ta tas)
    as [[[[a1 a2] a3] a4] a5] eqn:EA.
  pose proof (forward_domain_world (G_B_to_A (self w)) (G_A_to_B (self w))
                (P_B (self w)) (P_A (self w)) "b" "B" tb tbs w1) as HwB.
  pose proof (forward_domain_outcome (G_B_to_A (self w)) (G_A_to_B (self w))
                (P_B (self w)) (P_A (self w)) "b" "B" tb tbs w1) as HoB.
  rewrite Hh, Hs in HoB.
  destruct (forward_domain _ _ _ _ "b" "B" tb tbs w1) as [rb w3].
  simpl in HwB, HoB. subst w3 rb.
  destruct (domain_fault (self_t (self w)) "b" "B" tb tbs) as [e|];
    [reflexivity|].
  destruct (domain_entries (autograd w) _ _ _ _ _ tb tbs)
    as [[[[b1 b2] b3] b4] b5] eqn:EB.
  reflexivity.
Qed.

(** X1: whatever its inputs and whether it returns or raises, [forward]
    leaves the object, the autograd history and the random generator as
    they are; it prints the notice once when [warning] holds and nothing
    otherwise. *)
Theorem forward_only_prints (ta tb : option tensor)
    (tas tbs : option (list tensor)) (warning : bool) (w : World) :
  let w' := snd (forward ta tb tas tbs warning w) in
  self w' = self w /\
  autograd w' = autograd w /\
  rng w' = rng w /\
  stdout w' = stdout w ++ (if warning then [inference_notice] else []).
Proof.
  cbv zeta. rewrite forward_outcome. simpl.
  destruct warning; simpl; rewrite ?app_nil_r; repeat split.
Qed.

Lemma domain_fault_fine (t : Z) (x domain : string)
    (tx : option tensor) (txs : option (list tensor)) :
  domain_fault t x domain tx txs = None <-> domain_fine t tx txs.
Proof.
  unfold domain_fault, domain_fine.
  destruct tx as [fx|], txs as [sx|]; try (split; [discriminate|tauto]);
    try tauto.
  destruct (Z.leb_spec t 0); [split; [discriminate|lia]|].
  destruct (Z.ltb_spec (Z.of_nat (List.length sx)) t);
    split; try discriminate; try lia; reflexivity.
Qed.

(** X2: [forward] returns a dict exactly when at least one of the four
    inputs is given and each domain is either left out altogether or
    given with both inputs, [self.t >= 1] and a list of at least [self.t]
    frames. *)
Theorem forward_returns_iff (ta tb : option tensor)
    (tas tbs : option (list tensor)) (warning : bool) (w : World) :
  (exists d, fst (forward ta tb tas tbs warning w) = Ok d)
  <->
  given ta || given tb || given tas || given tbs = true /\
  domain_fine (self_t (self w)) ta tas /\
  domain_fine (self_t (self w)) tb tbs.
Proof.
  rewrite forward_outcome. unfold fst, forward_result.
  pose proof (domain_fault_fine (self_t (self w)) "a" "A" ta tas) as FA.
  pose proof (domain_fault_fine (self_t (self w)) "b" "B" tb tbs) as FB.
  destruct (given ta || given tb || given tas || given tbs); cbv [negb].
  - destruct (domain_fault _ "a" "A" ta tas) as [ea|].
    + split; [intros [d H]; discriminate|].
      intros (_ & H & _). apply FA in H. discriminate.
    + destruct (domain_fault _ "b" "B" tb tbs) as [eb|].
      * split; [intros [d H]; discriminate|].
        intros (_ & _ & H). apply FB in H. discriminate.
      * split; [|intros _; eexists; reflexivity].
        intros _. split; [reflexivity|]. split; [apply FA | apply FB]; reflexivity.
  - split; [intros [d H]; discriminate | intros (H & _); discriminate].
Qed.

(** X3: the faults of a domain that is given with both inputs, and their
    order.  With [self.t <= 0] the tuple is empty and [torch.cat] raises
    RuntimeError; with [self.t >= 1] and a list of fewer than [self.t]
    frames the read of the missing frame raises IndexError.  A fault of
    domain A is raised whatever the inputs of domain B are, even ones that
    would raise themselves; a fault of domain B is raised when domain A is
    left out or sound. *)
Theorem forward_fault_order (x y : tensor) (xs ys : list tensor)
    (ta tb : option tensor) (tas tbs : option (list tensor))
    (warning : bool) (w : World) :
  let t := self_t (self w) in
  let empty_cat :=
    RuntimeError "torch.cat(): expected a non-empty list of Tensors" in
  (t <= 0 ->
   fst (forward (Some x) tb (Some xs) tbs warning w) = Raise empty_cat) /\
  (1 <= t -> Z.of_nat (List.length xs) < t ->
   fst (forward (Some x) tb (Some xs) tbs warning w) = Raise IndexError) /\
  (domain_fine t ta tas -> t <= 0 ->
   fst (forward ta (Some y) tas (Some ys) warning w) = Raise empty_cat) /\
  (domain_fine t ta tas -> 1 <= t -> Z.of_nat (List.length ys) < t ->
   fst (forward ta (Some y) tas (Some ys) warning w) = Raise IndexError).
Proof.
  cbv zeta. rewrite !forward_outcome. simpl. unfold forward_result.
  repeat split.
  - intros Ht. simpl. unfold domain_fault.
    destruct (Z.leb_spec (self_t (self w)) 0); [reflexivity | lia].
  - intros Ht Hl. simpl. unfold domain_fault.
    destruct (Z.leb_spec (self_t (self w)) 0); [lia|].
    destruct (Z.ltb_spec (Z.of_nat (List.length xs)) (self_t (self w)));
      [reflexivity | lia].
  - intros HA Ht.
    replace (given ta || given (Some y) || given tas || given (Some ys))
      with true by (destruct ta, tas; reflexivity).
    apply domain_fault_fine with (x := "a") (domain := "A") in HA.
    simpl. rewrite HA. unfold domain_fault.
    destruct (Z.leb_spec (self_t (self w)) 0); [reflexivity | lia].
  - intros HA Ht Hl.
    replace (given ta || given (Some y) || given tas || given (Some ys))
      with true by (destruct ta, tas; reflexivity).
    apply domain_fault_fine with (x := "a") (domain := "A") in HA.
    simpl. rewrite HA. unfold domain_fault.
    destruct (Z.leb_spec (self_t (self w)) 0); [lia|].
    destruct (Z.ltb_spec (Z.of_nat (List.length ys)) (self_t (self w)));
      [reflexivity | lia].
Qed.

(** X4: the two domains do not meet in [forward].  When the call with
    domain A alone returns [dA] and the call with domain B alone returns
    [dB], the call with both returns a dict that agrees with [dA] on the
    five keys of domain A and with [dB] on the five keys of domain B. *)
Theorem forward_joins_domains (ta tb : option tensor)
    (tas tbs : option (list tensor)) (wa wb wc : bool) (w : World)
    (dA dB : dict) :
  fst (forward ta None tas None wa w) = Ok dA ->
  fst (forward None tb None tbs wb w) = Ok dB ->
  exists d,
    fst (forward ta tb tas tbs wc w) = Ok d /\
    (forall k, In k keys_A -> dict_get d k = dict_get dA k) /\
    (forall k, In k keys_B -> dict_get d k = dict_get dB k).
Proof.
  rewrite !forward_outcome. simpl. unfold forward_result.
  intros HA HB.
  destruct (negb (given ta || given None || given tas || given None)) eqn:NA;
    [discriminate|].
  destruct (negb (given None || given tb || given None || given tbs)) eqn:NB;
    [discriminate|].
  replace (negb (given ta || given tb || given tas || given tbs)) with false
    by (destruct ta, tb, tas, tbs; simpl in *; congruence).
  destruct (domain_fault _ "a" "A" ta tas) as [e|]; [discriminate|].
  simpl in HB.
  destruct (domain_fault _ "b" "B" tb tbs) as [e|]; [discriminate|].
  simpl in HA.
  destruct (domain_entries _ _ _ _ _ _ ta tas) as [[[[a1 a2] a3] a4] a5].
  destruct (domain_entries _ _ _ _ _ _ tb tbs) as [[[[b1 b2] b3] b4] b5].
  injection HA as <-. injection HB as <-.
  eexists. split; [reflexivity|].
  split; intros k Hk; simpl in Hk;
    intuition (subst; reflexivity).
Qed.

(** X5: the outcome of [forward] depends on the world only through
    [self.t], the two translators, the two predictors and their weights:
    two worlds that agree on these give the same outcome, whatever they
    hold as stored input, losses, buffers, discriminators, optimizers or
    random state, and whatever [warning] is. *)
Theorem forward_reads_little (ta tb : option tensor)
    (tas tbs : option (list tensor)) (warning1 warning2 : bool)
    (w1 w2 : World) :
  self_t (self w1) = self_t (self w2) ->
  G_A_to_B (self w1) = G_A_to_B (self w2) ->
  G_B_to_A (self w1) = G_B_to_A (self w2) ->
  P_A (self w1) = P_A (self w2) ->
  P_B (self w1) = P_B (self w2) ->
  autograd w1 = autograd w2 ->
  fst (forward ta tb tas tbs warning1 w1)
  = fst (forward ta tb tas tbs warning2 w2).
Proof.
  intros Ht H1 H2 H3 H4 Hh. rewrite !forward_outcome. simpl.
  unfold forward_result. rewrite Ht, H1, H2, H3, H4, Hh. reflexivity.
Qed.

(** X6: when [forward] returns and domain A was given, 'true_a' is the
    frame that was passed, 'fake_b_spat' is [G_A_to_B] of it, 'fake_b_temp'
    is [P_B] of the translated tuple, and 'fake_b' is half the sum of the
    entries 'fake_b_spat' and 'fake_b_temp'; likewise for domain B. *)
Theorem forward_entries (ta tb : option tensor)
    (tas tbs : option (list tensor)) (warning : bool) (w : World) (d : dict) :
  fst (forward ta tb tas tbs warning w) = Ok d ->
  let h := autograd w in
  let m := self w in
  (forall x xs, ta = Some x -> tas = Some xs ->
     exists spat temp,
       dict_get d "true_a" = Some (Some x) /\
       dict_get d "fake_b_spat" = Some (Some spat) /\
       dict_get d "fake_b_temp" = Some (Some temp) /\
       dict_get d "fake_b" = Some (Some (t_rmul (1 # 2) (t_add spat temp))) /\
       spat = net_forward h (G_A_to_B m) x /\
       temp = net_forward h (P_B m)
                (translated_tuple h (G_A_to_B m) (self_t m) xs)) /\
  (forall y ys, tb = Some y -> tbs = Some ys ->
     exists spat temp,
       dict_get d "true_b" = Some (Some y) /\
       dict_get d "fake_a_spat" = Some (Some spat) /\
       dict_get d "fake_a_temp" = Some (Some temp) /\
       dict_get d "fake_a" = Some (Some (t_rmul (1 # 2) (t_add spat temp))) /\
       spat = net_forward h (G_B_to_A m) y /\
       temp = net_forward h (P_A m)
                (translated_tuple h (G_B_to_A m) (self_t m) ys)).
Proof.
  rewrite forward_outcome. simpl. unfold forward_result. intros H. cbv zeta.
  destruct (negb _); [discriminate|].
  destruct (domain_fault _ "a" "A" ta tas) as [e|]; [discriminate|].
  destruct (domain_fault _ "b" "B" tb tbs) as [e|]; [discriminate|].
  injection H as <-. split.
  - intros x xs -> ->. simpl.
    destruct (domain_entries _ _ _ _ _ _ tb tbs) as [[[[b1 b2] b3] b4] b5].
    eexists. eexists. repeat split.
  - intros y ys -> ->.
    destruct (domain_entries _ _ _ _ _ _ ta tas) as [[[[a1 a2] a3] a4] a5].
    simpl. eexists. eexists. repeat split.
Qed.

(** ** backward, failure by failure *)

Lemma torch_chunk_short {A : Type} (l : list A) (k : Z) :
  1 <= Z.of_nat (List.length l) <= k ->
  torch_chunk l k = Ok (map (fun x => [x]) l).
Proof.
  intros H. unfold torch_chunk.
  destruct (Z.leb_spec k 0) as [Hk|_]; [lia|].
  destruct (Z.eqb_spec (Z.of_nat (List.length l)) 0) as [H0|_]; [lia|].
  replace ((Z.of_nat (List.length l) + k - 1) / k) with 1
    by (apply Z.div_unique with (r := Z.of_nat (List.length l) - 1); lia).
  unfold torch_split. simpl. rewrite split_fuel_one by lia. reflexivity.
Qed.

Lemma frame_list_lists (name : string)
    (sel : ReCycleGAN -> option (list tensor)) (l : list tensor) (w : World) :
  sel (self w) = Some l ->
  1 <= Z.of_nat (List.length l) <= self_T (self w) ->
  frame_list name sel w = (Ok l, w).
Proof.
  intros Hsel Hl. unfold frame_list, bind, getattr, gets, lift, ret.
  rewrite Hsel, torch_chunk_short, squeeze_frames by exact Hl. reflexivity.
Qed.

Lemma translate_loop_lists (la lb : list tensor) (w : World) :
  forall n k (acc_b acc_a : list tensor),
    (k <= List.length la)%nat ->
    (k <= List.length lb)%nat ->
    foldM (fun (acc : list tensor * list tensor) i =>
             let (fake_b_frame_list, fake_a_frame_list) := acc in
             G_A_to_B <- gets G_A_to_B ;;
             frame_a <- getitem la i ;;
             fake_b <- call G_A_to_B frame_a ;;
             G_B_to_A <- gets G_B_to_A ;;
             frame_b <- getitem lb i ;;
             fake_a <- call G_B_to_A frame_b ;;
             ret (fake_b_frame_list ++ [fake_b], fake_a_frame_list ++ [fake_a]))
          (map Z.of_nat (seq k n)) (acc_b, acc_a) w
    = if (k + n <=? Nat.min (List.length la) (List.length lb))%nat
      then (Ok (acc_b ++ map (net_forward (autograd w) (G_A_to_B (self w)))
                             (firstn n (skipn k la)),
                acc_a ++ map (net_forward (autograd w) (G_B_to_A (self w)))
                             (firstn n (skipn k lb))), w)
      else (Raise IndexError, w).
Proof.
  induction n as [|n IH]; intros k acc_b acc_a Ha Hb.
  - simpl. rewrite Nat.add_0_r.
    destruct (Nat.leb_spec k (Nat.min (List.length la) (List.length lb)))
      as [_|H]; [|lia].
    unfold ret. rewrite !app_nil_r. reflexivity.
  - simpl foldM. unfold bind at 1. unfold bind at 1, gets at 1.
    unfold bind at 1, getitem at 1. rewrite py_getitem_nat.
    destruct (nth_error la k) as [xa|] eqn:Hxa.
    + assert (k < List.length la)%nat as Hlta
        by (apply nth_error_Some; rewrite Hxa; discriminate).
      unfold bind at 1, call at 1. unfold bind at 1, gets at 1.
      unfold bind at 1, getitem at 1. rewrite py_getitem_nat.
      destruct (nth_error lb k) as [xb|] eqn:Hxb.
      * assert (k < List.length lb)%nat as Hltb
          by (apply nth_error_Some; rewrite Hxb; discriminate).
        unfold bind at 1, call at 1. unfold ret at 1.
        rewrite IH by lia.
        replace (S k + n)%nat with (k + S n)%nat by lia.
        destruct (Nat.leb_spec (k + S n)
                    (Nat.min (List.length la) (List.length lb)));
          [|reflexivity].
        rewrite (skipn_nth_error _ _ _ Hxa), (skipn_nth_error _ _ _ Hxb).
        simpl. rewrite <- !app_assoc. reflexivity.
      * apply nth_error_None in Hxb.
        destruct (Nat.leb_spec (k + S n)
                    (Nat.min (List.length la) (List.length lb)));
          [lia | reflexivity].
    + apply nth_error_None in Hxa.
      destruct (Nat.leb_spec (k + S n)
                  (Nat.min (List.length la) (List.length lb)));
        [lia | reflexivity].
Qed.

(** The translation loop on any two lists of frames. *)
Lemma translate_frames_lists (la lb : list tensor) (w : World) :
  translate_frames la lb w
  = if (Z.to_nat (self_T (self w))
          <=? Nat.min (List.length la) (List.length lb))%nat
    then (Ok (map (net_forward (autograd w) (G_A_to_B (self w)))
                  (firstn (Z.to_nat (self_T (self w))) la),
              map (net_forward (autograd w) (G_B_to_A (self w)))
                  (firstn (Z.to_nat (self_T (self w))) lb)), w)
    else (Raise IndexError, w).
Proof.
  unfold translate_frames. unfold bind at 1, gets at 1.
  rewrite py_range_from_0.
  rewrite (translate_loop_lists la lb w) by lia.
  reflexivity.
Qed.

Lemma py_range_empty (lo hi : Z) : hi <= lo -> py_range lo hi = [].
Proof.
  intros H. unfold py_range. replace (Z.to_nat (hi - lo)) with 0%nat by lia.
  reflexivity.
Qed.

(** Past the split, with the two accumulators at zero. *)
Lemma backward_from_frames (la lb : list tensor) (w : World) :
  true_a_seq (self w) = Some la ->
  true_b_seq (self w) = Some lb ->
  1 <= Z.of_nat (List.length la) <= self_T (self w) ->
  1 <= Z.of_nat (List.length lb) <= self_T (self w) ->
  backward w
  = (' (fake_b_frame_list, fake_a_frame_list) <- translate_frames la lb ;;
     t <- gets self_t ;;
     T <- gets self_T ;;
     for_each (py_range t T)
              (accumulate_step la lb fake_b_frame_list fake_a_frame_list) ;;
     update) (install (start w) w).
Proof.
  intros Ha Hb La Lb. unfold backward.
  rewrite (bind_ok _ _ _ _ _
             (frame_list_lists "true_a_seq" true_a_seq la w Ha La)).
  rewrite (bind_ok _ _ _ _ _
             (frame_list_lists "true_b_seq" true_b_seq lb w Hb Lb)).
  unfold bind at 1, modify at 1. unfold bind at 1, modify at 1.
  reflexivity.
Qed.

Lemma backward_short_run (la lb : list tensor) (w : World) :
  true_a_seq (self w) = Some la ->
  true_b_seq (self w) = Some lb ->
  1 <= Z.of_nat (List.length la) <= self_T (self w) ->
  1 <= Z.of_nat (List.length lb) <= self_T (self w) ->
  Z.of_nat (Nat.min (List.length la) (List.length lb)) < self_T (self w) ->
  backward w = (Raise IndexError, install (start w) w).
Proof.
  intros Ha Hb La Lb Hmin.
  rewrite (backward_from_frames la lb w Ha Hb La Lb).
  unfold bind at 1. rewrite translate_frames_lists.
  change (self_T (self (install (start w) w))) with (self_T (self w)).
  destruct (Nat.leb_spec (Z.to_nat (self_T (self w)))
              (Nat.min (List.length la) (List.length lb))) as [H|_]; [lia|].
  reflexivity.
Qed.

Lemma backward_idle_run (la lb : list tensor) (w : World) :
  true_a_seq (self w) = Some la ->
  true_b_seq (self w) = Some lb ->
  Z.of_nat (List.length la) = self_T (self w) ->
  Z.of_nat (List.length lb) = self_T (self w) ->
  1 <= self_T (self w) <= self_t (self w) ->
  backward w
  = (Raise (AttributeError "backward"),
     record (ZeroGrad (optim_G (self w))) (install (start w) w)).
Proof.
  intros Ha Hb La Lb HT.
  rewrite (backward_from_frames la lb w Ha Hb) by lia.
  unfold bind at 1. rewrite translate_frames_lists.
  change (self_T (self (install (start w) w))) with (self_T (self w)).
  destruct (Nat.leb_spec (Z.to_nat (self_T (self w)))
              (Nat.min (List.length la) (List.length lb))) as [_|H]; [|lia].
  cbv beta iota zeta.
  unfold bind at 1, gets at 1. unfold bind at 1, gets at 1.
  change (self_t (self (install (start w) w))) with (self_t (self w)).
  change (self_T (self (install (start w) w))) with (self_T (self w)).
  rewrite py_range_empty by lia.
  reflexivity.
Qed.

Lemma nth_over_seq (d : tensor) :
  forall (l : list tensor) (k : nat),
    map (fun j => nth (j - k) l d) (seq k (List.length l)) = l.
Proof.
  induction l as [|x l IH]; intros k; simpl; [reflexivity|].
  rewrite Nat.sub_diag. f_equal.
  rewrite <- (IH (S k)) at 2. apply map_ext_in.
  intros j Hj. apply in_seq in Hj.
  replace (j - k)%nat with (S (j - S k)) by lia. reflexivity.
Qed.

Lemma list_as_family (l : list tensor) (d : tensor) :
  l = map (frame_of l d) (py_range 0 (Z.of_nat (List.length l))).
Proof.
  rewrite py_range_from_0, Nat2Z.id, map_map. unfold frame_of.
  rewrite <- (nth_over_seq d l 0) at 1. apply map_ext.
  intros j. rewrite Nat2Z.id, Nat.sub_0_r. reflexivity.
Qed.

(** The whole of [backward] on two stored lists of [self.T] frames. *)
Lemma backward_lists_run (la lb : list tensor) (d : tensor) (w : World) :
  1 <= self_t (self w) ->
  self_t (self w) < self_T (self w) ->
  true_a_seq (self w) = Some la ->
  true_b_seq (self w) = Some lb ->
  Z.of_nat (List.length la) = self_T (self w) ->
  Z.of_nat (List.length lb) = self_T (self w) ->
  exists lg ld,
    acc_G (fold_left (step_at (autograd w) (self w)
                              (frame_of la d) (frame_of lb d))
                     (steps (self w)) (start w)) = PyTensor lg /\
    acc_D (fold_left (step_at (autograd w) (self w)
                              (frame_of la d) (frame_of lb d))
                     (steps (self w)) (start w)) = PyTensor ld /\
    backward w
    = (Ok tt,
       logged (update_events (self w) lg ld)
         (install (fold_left (step_at (autograd w) (self w)
                                      (frame_of la d) (frame_of lb d))
                             (steps (self w)) (start w)) w)).
Proof.
  intros Ht HT Ha Hb La Lb.
  apply (backward_run (frame_of la d) (frame_of lb d) w Ht HT).
  - rewrite Ha, <- La. f_equal. apply list_as_family.
  - rewrite Hb, <- Lb. f_equal. apply list_as_family.
Qed.

Lemma stepped_after_update (h : history) (m : ReCycleGAN) (lg ld : tensor) :
  stepped_optimizers (h ++ update_events m lg ld)
  = stepped_optimizers h ++ [optim_G m; optim_D m].
Proof. unfold stepped_optimizers. rewrite flat_map_app. reflexivity. Qed.

Lemma rounds_setup (m m' : ReCycleGAN) (n : nat) :
  setup m' = setup m -> rounds m' n = rounds m n.
Proof.
  intros H. unfold setup in H. injection H as _ _ _ _ _ _ _ _ _ HG HD _ _.
  induction n as [|n IH]; simpl; [reflexivity|]. rewrite HG, HD, IH. reflexivity.
Qed.

(** ** What backward leaves alone *)

Lemma same_setup_refl (w : World) : same_setup w w.
Proof. split; reflexivity. Qed.

Lemma same_setup_trans (w1 w2 w3 : World) :
  same_setup w1 w2 -> same_setup w2 w3 -> same_setup w1 w3.
Proof. intros [H1 H2] [H3 H4]. split; congruence. Qed.

Lemma setup_still {A : Type} (c : M A) :
  (forall w, snd (c w) = w) -> keeps_setup c.
Proof. intros H w. rewrite H. apply same_setup_refl. Qed.

Lemma setup_ret {A : Type} (a : A) : keeps_setup (ret a).
Proof. apply setup_still. reflexivity. Qed.

Lemma setup_lift {A : Type} (r : result A) : keeps_setup (lift r).
Proof. apply setup_still. reflexivity. Qed.

Lemma setup_raise {A : Type} (e : PyExc) : keeps_setup (@raise _ A e).
Proof. apply setup_still. reflexivity. Qed.

Lemma setup_gets {A : Type} (f : ReCycleGAN -> A) : keeps_setup (gets f).
Proof. apply setup_still. reflexivity. Qed.

Lemma setup_getattr {A : Type} (name : string) (f : ReCycleGAN -> option A) :
  keeps_setup (getattr name f).
Proof.
  apply setup_still. intros w. unfold getattr. destruct (f (self w)); reflexivity.
Qed.

Lemma setup_getitem {A : Type} (l : list A) (i : Z) : keeps_setup (getitem l i).
Proof.
  apply setup_still. intros w. unfold getitem.
  destruct (py_getitem l i); reflexivity.
Qed.

Lemma setup_call (net : Net) (x : tensor) : keeps_setup (call net x).
Proof. apply setup_still. reflexivity. Qed.

Lemma setup_record (e : Event tensor Param) : keeps_setup (effect (record e)).
Proof. intros w. split; reflexivity. Qed.

Lemma setup_set_loss_D (v : pyval) : keeps_setup (modify (set_loss_D v)).
Proof. intros w. split; reflexivity. Qed.

Lemma setup_set_loss_G (v : pyval) : keeps_setup (modify (set_loss_G v)).
Proof. intros w. split; reflexivity. Qed.

Lemma setup_pop_b (buf : Buffer) (x : tensor) :
  keeps_setup
    (fun w => let '(y, buf', g') := push_and_pop (rng w) buf x in
              (Ok y, with_rng g' (with_self (set_fake_b_buffer buf' (self w)) w))).
Proof.
  intros w. destruct (push_and_pop (rng w) buf x) as [[y b'] g'].
  split; reflexivity.
Qed.

Lemma setup_pop_a (buf : Buffer) (x : tensor) :
  keeps_setup
    (fun w => let '(y, buf', g') := push_and_pop (rng w) buf x in
              (Ok y, with_rng g' (with_self (set_fake_a_buffer buf' (self w)) w))).
Proof.
  intros w. destruct (push_and_pop (rng w) buf x) as [[y b'] g'].
  split; reflexivity.
Qed.

Lemma setup_bind {A B : Type} (c : M A) (k : A -> M B) :
  keeps_setup c -> (forall a, keeps_setup (k a)) -> keeps_setup (bind c k).
Proof.
  intros Hc Hk w. unfold bind. specialize (Hc w).
  destruct (c w) as [[a|e] w1]; simpl in Hc.
  - apply same_setup_trans with (w2 := w1); [exact Hc | apply Hk].
  - exact Hc.
Qed.

Lemma setup_foldM {A S : Type} (body : S -> A -> M S) :
  (forall s x, keeps_setup (body s x)) ->
  forall xs acc, keeps_setup (foldM body xs acc).
Proof.
  intros Hb. induction xs as [|x xs IH]; intros acc; simpl.
  - apply setup_ret.
  - apply setup_bind; [apply Hb | intros s; apply IH].
Qed.

Lemma setup_for_each {A : Type} (body : A -> M unit) :
  (forall x, keeps_setup (body x)) -> forall xs, keeps_setup (for_each xs body).
Proof.
  intros Hb. induction xs as [|x xs IH]; simpl.
  - apply setup_ret.
  - apply setup_bind; [apply Hb | intros _; exact IH].
Qed.

Create HintDb setup.
#[local] Hint Resolve setup_ret setup_raise setup_lift setup_gets setup_getattr
  setup_getitem setup_call setup_record setup_set_loss_D setup_set_loss_G
  setup_pop_a setup_pop_b : setup.

Ltac setup_step :=
  first
    [ solve [auto with setup]
    | apply setup_bind; [|intros]
    | apply setup_foldM; intros
    | apply setup_for_each; intros
    | match goal with
      | |- keeps_setup (match ?x with _ => _ end) => destruct x
      | |- keeps_setup (let (_, _) := ?x in _) => destruct x
      end ].

Lemma setup_backward : keeps_setup backward.
Proof.
  unfold backward, frame_list, translate_frames, accumulate_step, tuple_before,
    update, loss_backward, updateGenerator, updateDiscriminator.
  repeat setup_step.
Qed.

(** ** backward, from the caller's side *)

(** X7: [backward] on an object that [setInput] never filled raises
    AttributeError for [true_a_seq] and changes nothing; this is so right
    after construction. *)
Theorem backward_needs_input (w : World) :
  (true_a_seq (self w) = None ->
   backward w = (Raise (AttributeError "true_a_seq"), w)) /\
  (forall A_channel B_channel T t r dev,
     self w = __init__ A_channel B_channel T t r dev ->
     backward w = (Raise (AttributeError "true_a_seq"), w)).
Proof.
  assert (true_a_seq (self w) = None ->
          backward w = (Raise (AttributeError "true_a_seq"), w)) as H.
  { intros Hn. unfold backward, frame_list. unfold bind at 1. unfold bind at 1.
    unfold getattr. rewrite Hn. reflexivity. }
  split; [exact H|].
  intros A_channel B_channel T t r dev Hw. apply H. rewrite Hw. reflexivity.
Qed.

(** X8: when the stored sequences hold at least one frame and at most
    [self.T], and one of them fewer than [self.T], [backward] raises
    IndexError while translating; by then both losses are the float 0.0,
    and nothing was pushed to the buffers, drawn from the random generator
    or done to the parameters. *)
Theorem backward_short_sequence (la lb : list tensor) (w : World) :
  true_a_seq (self w) = Some la ->
  true_b_seq (self w) = Some lb ->
  1 <= Z.of_nat (List.length la) <= self_T (self w) ->
  1 <= Z.of_nat (List.length lb) <= self_T (self w) ->
  Z.of_nat (Nat.min (List.length la) (List.length lb)) < self_T (self w) ->
  let w' := snd (backward w) in
  fst (backward w) = Raise IndexError /\
  loss_G (self w') = Some (PyFloat 0) /\
  loss_D (self w') = Some (PyFloat 0) /\
  fake_a_buffer (self w') = fake_a_buffer (self w) /\
  fake_b_buffer (self w') = fake_b_buffer (self w) /\
  rng w' = rng w /\
  autograd w' = autograd w.
Proof.
  intros Ha Hb La Lb Hmin. cbv zeta.
  rewrite (backward_short_run la lb w Ha Hb La Lb Hmin). repeat split.
Qed.

(** X9: when the stored sequences hold [self.T] frames but
    [self.T <= self.t] (the model was built with [T <= 0]), the loop runs
    no step, [loss_G] is still the float 0.0 and [backward] raises
    AttributeError at [self.loss_G.backward()], after [optim_G.zero_grad()]
    and before any optimizer step. *)
Theorem backward_without_steps (la lb : list tensor) (w : World) :
  true_a_seq (self w) = Some la ->
  true_b_seq (self w) = Some lb ->
  Z.of_nat (List.length la) = self_T (self w) ->
  Z.of_nat (List.length lb) = self_T (self w) ->
  1 <= self_T (self w) <= self_t (self w) ->
  let w' := snd (backward w) in
  fst (backward w) = Raise (AttributeError "backward") /\
  loss_G (self w') = Some (PyFloat 0) /\
  loss_D (self w') = Some (PyFloat 0) /\
  autograd w' = autograd w ++ [ZeroGrad (optim_G (self w))] /\
  stepped_optimizers (autograd w') = stepped_optimizers (autograd w).
Proof.
  intros Ha Hb La Lb HT. cbv zeta.
  rewrite (backward_idle_run la lb w Ha Hb La Lb HT). simpl.
  repeat split. unfold stepped_optimizers. rewrite flat_map_app. simpl.
  apply app_nil_r.
Qed.

(** X10: whether it returns or raises, [backward] leaves the device, the
    six networks, the two optimizers, the stored input and what was
    printed as they are. *)
Theorem backward_keeps_setup (w : World) :
  let m := self w in
  let m' := self (snd (backward w)) in
  device m' = device m /\
  children m' = children m /\
  optimizers m' = optimizers m /\
  true_a_seq m' = true_a_seq m /\
  true_b_seq m' = true_b_seq m /\
  stdout (snd (backward w)) = stdout w.
Proof.
  cbv zeta. destruct (setup_backward w) as [H Ho]. unfold setup in H.
  injection H as _ _ Hd H1 H2 H3 H4 H5 H6 HG HD Ha Hb.
  unfold children, optimizers.
  rewrite Hd, H1, H2, H3, H4, H5, H6, HG, HD, Ha, Hb, Ho. repeat split.
Qed.

(** X11: construction, [setInput], [backward].  On a model built with
    [T >= 1] and [t >= 1], after [setInput] with two sequences of [T + t]
    frames, [backward] returns, both losses are tensors, and the
    parameters have seen one step of [optim_G] followed by one of
    [optim_D]. *)
Theorem construct_load_train (A_channel B_channel T t r : Z) (dev : string)
    (w : World) (seq_a seq_b : list tensor) :
  self w = __init__ A_channel B_channel T t r dev ->
  1 <= T ->
  1 <= t ->
  Z.of_nat (List.length seq_a) = T + t ->
  Z.of_nat (List.length seq_b) = T + t ->
  let w1 := snd (setInput seq_a seq_b w) in
  let w2 := snd (backward w1) in
  fst (setInput seq_a seq_b w) = Ok tt /\
  fst (backward w1) = Ok tt /\
  (exists lg ld,
     loss_G (self w2) = Some (PyTensor lg) /\
     loss_D (self w2) = Some (PyTensor ld)) /\
  stepped_optimizers (autograd w2)
  = stepped_optimizers (autograd w) ++ [optim_G (self w); optim_D (self w)].
Proof.
  intros Hw HT Ht La Lb. cbv zeta.
  split; [reflexivity|].
  destruct seq_a as [|d seq_a']; [simpl in La; lia|].
  set (seq_a := d :: seq_a') in *.
  set (w1 := snd (setInput seq_a seq_b w)).
  assert (self w1 = set_input (map (fun x => to_device dev (t_float x)) seq_a)
                              (map (fun x => to_device dev (t_float x)) seq_b)
                              (self w)) as Hs
    by (unfold w1, setInput, bind, gets, modify; simpl; rewrite Hw; reflexivity).
  assert (autograd w1 = autograd w) as Hh by reflexivity.
  assert (self_t (self w1) = t /\ self_T (self w1) = T + t) as [Et ET]
    by (rewrite Hs, Hw; split; reflexivity).
  destruct (backward_lists_run
              (map (fun x => to_device dev (t_float x)) seq_a)
              (map (fun x => to_device dev (t_float x)) seq_b) d w1)
    as (lg & ld & HG & HD & Hrun).
  { rewrite Et. exact Ht. }
  { rewrite Et, ET. lia. }
  { rewrite Hs. reflexivity. }
  { rewrite Hs. reflexivity. }
  { rewrite length_map, ET. exact La. }
  { rewrite length_map, ET. exact Lb. }
  rewrite Hrun.
  split; [reflexivity|].
  split; [exists lg, ld; split;
          [exact (f_equal Some HG) | exact (f_equal Some HD)]|].
  change (stepped_optimizers (autograd w1 ++ update_events (self w1) lg ld)
          = stepped_optimizers (autograd w)
            ++ [optim_G (self w); optim_D (self w)]).
  rewrite stepped_after_update, Hh, Hs. reflexivity.
Qed.

(** X12: a training loop.  On a model with [1 <= self.t < self.T] and two
    stored sequences of [self.T] frames, [n] calls of [backward] in a row
    all return, leave the setup as it is, and the parameters see [optim_G]
    and [optim_D] step in turn, [n] times each. *)
Theorem train_steps (la lb : list tensor) (n : nat) :
  forall w : World,
    1 <= self_t (self w) ->
    self_t (self w) < self_T (self w) ->
    true_a_seq (self w) = Some la ->
    true_b_seq (self w) = Some lb ->
    Z.of_nat (List.length la) = self_T (self w) ->
    Z.of_nat (List.length lb) = self_T (self w) ->
    fst (train n w) = Ok tt /\
    same_setup w (snd (train n w)) /\
    stepped_optimizers (autograd (snd (train n w)))
    = stepped_optimizers (autograd w) ++ rounds (self w) n.
Proof.
  induction n as [|n IH]; intros w Ht HT Ha Hb La Lb.
  - simpl. rewrite app_nil_r. repeat split.
  - destruct la as [|d la']; [simpl in La; lia|].
    destruct (backward_lists_run (d :: la') lb d w Ht HT Ha Hb La Lb)
      as (lg & ld & _ & _ & Hrun).
    simpl train. unfold bind. rewrite Hrun.
    set (w1 := logged _ _).
    assert (same_setup w w1) as Hset by (split; reflexivity).
    destruct (IH w1) as (Hok & Hsame & Hsteps); try assumption.
    split; [exact Hok|].
    split; [apply same_setup_trans with (w2 := w1); assumption|].
    rewrite Hsteps.
    change (autograd w1) with (autograd w ++ update_events (self w) lg ld).
    rewrite stepped_after_update, (rounds_setup _ _ n (proj1 Hset)), <- app_assoc.
    reflexivity.
Qed.

(** X13: the generator losses of a step do not look at the fake frames of
    that step.  Two runs of the loop body from the same world, on the same
    true frames and on fake frame lists that give the same tuples before
    step [i] but may differ at [i], leave the same [loss_G]. *)
Theorem generator_ignores_current_fakes
    (ta tb fb fa fb' fa' : list tensor) (i : Z) (w : World) (lg ld : pyval)
    (cat_ta cat_fb cat_tb cat_fa a_i b_i fb_i fa_i fb_i' fa_i' : tensor) :
  let t := self_t (self w) in
  loss_G (self w) = Some lg ->
  loss_D (self w) = Some ld ->
  torch_cat (py_slice ta (i - t) i) = Ok cat_ta ->
  torch_cat (py_slice tb (i - t) i) = Ok cat_tb ->
  torch_cat (py_slice fb (i - t) i) = Ok cat_fb ->
  torch_cat (py_slice fb' (i - t) i) = Ok cat_fb ->
  torch_cat (py_slice fa (i - t) i) = Ok cat_fa ->
  torch_cat (py_slice fa' (i - t) i) = Ok cat_fa ->
  py_getitem ta i = Some a_i ->
  py_getitem tb i = Some b_i ->
  py_getitem fb i = Some fb_i ->
  py_getitem fa i = Some fa_i ->
  py_getitem fb' i = Some fb_i' ->
  py_getitem fa' i = Some fa_i' ->
  fst (accumulate_step ta tb fb fa i w) = Ok tt /\
  fst (accumulate_step ta tb fb' fa' i w) = Ok tt /\
  loss_G (self (snd (accumulate_step ta tb fb fa i w)))
  = loss_G (self (snd (accumulate_step ta tb fb' fa' i w))).
Proof.
  intros t HG HD Xa Xb Yb Yb' Ya Ya' Ia Ib Jb Ja Jb' Ja'. subst t.
  pose proof (accumulate_step_from ta tb fb fa i
                {| acc_G := lg; acc_D := ld;
                   buf_b := fake_b_buffer (self w);
                   buf_a := fake_a_buffer (self w); acc_rng := rng w |} w
                cat_ta cat_fb cat_tb cat_fa a_i b_i fb_i fa_i
                Xa Yb Xb Ya Ia Ib Jb Ja) as H1.
  pose proof (accumulate_step_from ta tb fb' fa' i
                {| acc_G := lg; acc_D := ld;
                   buf_b := fake_b_buffer (self w);
                   buf_a := fake_a_buffer (self w); acc_rng := rng w |} w
                cat_ta cat_fb cat_tb cat_fa a_i b_i fb_i' fa_i'
                Xa Yb' Xb Ya' Ia Ib Jb' Ja') as H2.
  cbv zeta in H1, H2.
  rewrite (install_same w lg ld HG HD) in H1, H2.
  rewrite H1, H2. repeat split.
Qed.

(** X14: when [self.T <= 0] (the model was built with [T + t <= 0]) and an
    input is stored, [backward] raises the RuntimeError of [torch.chunk],
    whose message ends with the number of chunks asked for, and changes
    nothing. *)
Theorem backward_bad_chunks (la : list tensor) (w : World) :
  true_a_seq (self w) = Some la ->
  self_T (self w) <= 0 ->
  backward w
  = (Raise (RuntimeError
              (String.append
                 "chunk expects `chunks` to be greater than 0, got: "
                 (string_of_Z (self_T (self w))))), w).
Proof.
  intros Ha HT. unfold backward, frame_list.
  unfold bind at 1. unfold bind at 1. unfold getattr. rewrite Ha.
  unfold bind at 1, gets at 1. unfold bind at 1, lift, torch_chunk.
  destruct (Z.leb_spec (self_T (self w)) 0) as [_|H]; [reflexivity | lia].
Qed.

(** X15: losses do not pile up from one call to the next.  When the two
    stored sequences hold between one and [self.T] frames, [backward]
    behaves the same whatever [loss_D] and [loss_G] held before. *)
Theorem backward_forgets_losses (la lb : list tensor) (w : World)
    (vD vG : pyval) :
  true_a_seq (self w) = Some la ->
  true_b_seq (self w) = Some lb ->
  1 <= Z.of_nat (List.length la) <= self_T (self w) ->
  1 <= Z.of_nat (List.length lb) <= self_T (self w) ->
  backward (with_self (set_loss_D vD (set_loss_G vG (self w))) w)
  = backward w.
Proof.
  intros Ha Hb La Lb.
  rewrite (backward_from_frames la lb w Ha Hb La Lb).
  rewrite (backward_from_frames la lb
             (with_self (set_loss_D vD (set_loss_G vG (self w))) w) Ha Hb La Lb).
  reflexivity.
Qed.

(** X16: inference after training.  After a [backward] that returned,
    the outcome of [forward] is the one computed with the same [self.t] and
    networks and with the weights as the two optimizer steps left them;
    nothing else of the training call reaches it. *)
Theorem forward_after_backward (la lb : list tensor) (w : World)
    (ta tb : option tensor) (tas tbs : option (list tensor)) (warning : bool) :
  1 <= self_t (self w) ->
  self_t (self w) < self_T (self w) ->
  true_a_seq (self w) = Some la ->
  true_b_seq (self w) = Some lb ->
  Z.of_nat (List.length la) = self_T (self w) ->
  Z.of_nat (List.length lb) = self_T (self w) ->
  exists lg ld,
    autograd (snd (backward w))
    = autograd w ++ update_events (self w) lg ld /\
    fst (forward ta tb tas tbs warning (snd (backward w)))
    = forward_result (self w) (autograd w ++ update_events (self w) lg ld)
                     ta tb tas tbs.
Proof.
  intros Ht HT Ha Hb La Lb.
  destruct la as [|d la']; [simpl in La; lia|].
  destruct (backward_lists_run (d :: la') lb d w Ht HT Ha Hb La Lb)
    as (lg & ld & _ & _ & Hrun).
  exists lg, ld. rewrite Hrun, forward_outcome. split; reflexivity.
Qed.

(** X17: with [self.t = 0] and two stored sequences of [self.T >= 1]
    frames, the first step of the loop finds an empty tuple, [torch.cat]
    raises RuntimeError, and [backward] stops with both losses at the float
    0.0 and nothing done to the buffers or the parameters. *)
Theorem backward_empty_tuples (la lb : list tensor) (w : World) :
  true_a_seq (self w) = Some la ->
  true_b_seq (self w) = Some lb ->
  Z.of_nat (List.length la) = self_T (self w) ->
  Z.of_nat (List.length lb) = self_T (self w) ->
  self_t (self w) = 0 ->
  1 <= self_T (self w) ->
  backward w
  = (Raise (RuntimeError "torch.cat(): expected a non-empty list of Tensors"),
     install (start w) w).
Proof.
  intros Ha Hb La Lb Ht HT.
  rewrite (backward_from_frames la lb w Ha Hb) by lia.
  unfold bind at 1. rewrite translate_frames_lists.
  change (self_T (self (install (start w) w))) with (self_T (self w)).
  destruct (Nat.leb_spec (Z.to_nat (self_T (self w)))
              (Nat.min (List.length la) (List.length lb))) as [_|H]; [|lia].
  cbv beta iota zeta.
  unfold bind at 1, gets at 1. unfold bind at 1, gets at 1.
  change (self_t (self (install (start w) w))) with (self_t (self w)).
  change (self_T (self (install (start w) w))) with (self_T (self w)).
  rewrite Ht.
  destruct (py_range 0 (self_T (self w))) as [|i idx] eqn:E.
  { apply (f_equal (@List.length Z)) in E. rewrite py_range_length in E.
    simpl in E. lia. }
  assert (i = 0) as ->.
  { unfold py_range in E.
    destruct (Z.to_nat (self_T (self w) - 0)) as [|n]; [discriminate|].
    simpl in E. injection E as <- _. reflexivity. }
  simpl for_each. unfold bind at 1. unfold bind at 1.
  unfold accumulate_step. unfold bind at 1.
  unfold tuple_before at 1. unfold bind at 1, gets at 1.
  change (self_t (self (install (start w) w))) with (self_t (self w)).
  rewrite Ht. unfold bind at 1, lift at 1.
  assert (py_slice la (0 - 0) 0 = []) as ->.
  { unfold py_slice. simpl.
    rewrite Z.min_l by lia. reflexivity. }
  reflexivity.
Qed.

(** ** The two sizes *)

(** C10, as the code has it: built with [T] and [t], the object holds
    [self.t = t] and [self.T = T + t]; [setInput], [forward],
    [updateGenerator], [updateDiscriminator] and [backward] leave both as
    they are, whether they return or raise; so, with [t >= 1], [T >= 0]
    and two stored sequences of exactly [T + t] frames, [backward] splits
    each sequence into [T + t] frames and the losses it leaves are the sums
    over exactly the [T] time steps from [t] to [T + t - 1]. *)
Theorem t_and_T_are_fixed (A_channel B_channel T t r : Z) (dev : string) :
  let m := __init__ A_channel B_channel T t r dev in
  self_t m = t /\
  self_T m = T + t /\
  (forall a b, keeps_t_T (setInput a b)) /\
  (forall ta tb tas tbs warning, keeps_t_T (forward ta tb tas tbs warning)) /\
  (forall x1 x2 x3 x4 n1 n2 n3 n4,
     keeps_t_T (updateGenerator x1 x2 x3 x4 n1 n2 n3 n4)) /\
  (forall x1 x2 n, keeps_t_T (updateDiscriminator x1 x2 n)) /\
  keeps_t_T backward /\
  forall (w : World) (seq_a seq_b : list tensor) (d : tensor),
    self w = m ->
    0 <= T ->
    1 <= t ->
    Z.of_nat (List.length seq_a) = T + t ->
    Z.of_nat (List.length seq_b) = T + t ->
    let w1 := snd (setInput seq_a seq_b w) in
    let w2 := snd (backward w1) in
    let frames_a := map (fun x => to_device dev (t_float x)) seq_a in
    let frames_b := map (fun x => to_device dev (t_float x)) seq_b in
    let a := frame_of frames_a d in
    let b := frame_of frames_b d in
    let time_steps := py_range t (T + t) in
    frame_list "true_a_seq" true_a_seq w1 = (Ok frames_a, w1) /\
    frame_list "true_b_seq" true_b_seq w1 = (Ok frames_b, w1) /\
    Z.of_nat (List.length frames_a) = T + t /\
    Z.of_nat (List.length frames_b) = T + t /\
    Z.of_nat (List.length time_steps) = T /\
    loss_G (self w2)
    = Some (fold_left iadd
              (flat_map (gen_losses (autograd w) (self w1) a b) time_steps)
              (PyFloat 0)) /\
    loss_D (self w2)
    = Some (fold_left iadd
              (flat_map (disc_losses (autograd w) (self w1) a b)
                 (combine time_steps
                    (replay (autograd w) (self w1) a b time_steps (start w1))))
              (PyFloat 0)).
Proof.
  cbv zeta. split; [reflexivity|]. split; [reflexivity|].
  split; [exact keeps_setInput|]. split; [exact keeps_forward|].
  split; [exact keeps_updateGenerator|].
  split; [exact keeps_updateDiscriminator|].
  split; [exact keeps_backward|].
  intros w seq_a seq_b d Hw HT Ht La Lb.
  destruct w as [m0 h g o]. simpl in Hw. subst m0.
  set (la := map (fun x => to_device dev (t_float x)) seq_a).
  set (lb := map (fun x => to_device dev (t_float x)) seq_b).
  set (w1 := snd (setInput seq_a seq_b _)).
  assert (self_t (self w1) = t) as Et by reflexivity.
  assert (self_T (self w1) = T + t) as ET by reflexivity.
  assert (true_a_seq (self w1) = Some la) as Ha by reflexivity.
  assert (true_b_seq (self w1) = Some lb) as Hb by reflexivity.
  assert (autograd w1 = h) as Hh by reflexivity.
  assert (Z.of_nat (List.length la) = T + t) as La'
    by (unfold la; rewrite length_map; exact La).
  assert (Z.of_nat (List.length lb) = T + t) as Lb'
    by (unfold lb; rewrite length_map; exact Lb).
  split; [apply frame_list_lists; [exact Ha | rewrite ET; lia]|].
  split; [apply frame_list_lists; [exact Hb | rewrite ET; lia]|].
  split; [exact La'|]. split; [exact Lb'|].
  split; [rewrite py_range_length; lia|].
  simpl autograd.
  destruct (Z.eq_dec T 0) as [T0|T0].
  - rewrite (backward_idle_run la lb w1 Ha Hb)
      by (rewrite ?ET, ?Et; first [assumption | lia]).
    rewrite (py_range_empty t (T + t)) by lia.
    split; reflexivity.
  - destruct (backward_lists_run la lb d w1)
      as (lg & ld & HG & HD & Hrun);
      try (rewrite ?ET, ?Et; first [assumption | lia]).
    rewrite Hrun. split.
    + change (Some (acc_G (fold_left
                (step_at (autograd w1) (self w1) (frame_of la d) (frame_of lb d))
                (steps (self w1)) (start w1)))
              = Some (fold_left iadd
                        (flat_map (gen_losses h (self w1) (frame_of la d)
                                              (frame_of lb d))
                                  (py_range t (T + t)))
                        (PyFloat 0))).
      rewrite acc_G_fold, Hh. reflexivity.
    + change (Some (acc_D (fold_left
                (step_at (autograd w1) (self w1) (frame_of la d) (frame_of lb d))
                (steps (self w1)) (start w1)))
              = Some (fold_left iadd
                        (flat_map (disc_losses h (self w1) (frame_of la d)
                                               (frame_of lb d))
                           (combine (py_range t (T + t))
                              (replay h (self w1) (frame_of la d)
                                      (frame_of lb d) (py_range t (T + t))
                                      (start w1))))
                        (PyFloat 0))).
      rewrite acc_D_fold, Hh. reflexivity.
Qed.

End MoreFacts.

(** * forward on networks that check their channels *)

Section CheckedFacts.

Context {TL : Torch} {TS : Shapes TL}.

(** The same code: with the plain call, [forward_with] is [forward]. *)
Lemma forward_with_call (ta tb : option tensor)
    (tas tbs : option (list tensor)) (warning : bool) (w : World) :
  forward_with call ta tb tas tbs warning w = forward ta tb tas tbs warning w.
Proof. reflexivity. Qed.

Lemma call_checked_inv (net : Net) (x r : tensor) (w w' : World) :
  call_checked net x w = (Ok r, w') ->
  channels x = net_in net /\ r = net_forward (autograd w) net x /\ w' = w.
Proof.
  unfold call_checked.
  destruct (Z.eqb_spec (channels x) (net_in net)) as [E|_];
    [|discriminate].
  unfold call. intros H. injection H as <- <-. repeat split. exact E.
Qed.

Lemma checked_loop_inv (G : Net) (l : list tensor) (w : World) :
  forall n k (acc r : list tensor) (w' : World),
    (k <= List.length l)%nat ->
    foldM (fun acc i =>
             frame <- getitem l i ;;
             fake <- call_checked G frame ;;
             ret (acc ++ [fake]))
          (map Z.of_nat (seq k n)) acc w
    = (Ok r, w') ->
    w' = w /\
    (k + n <= List.length l)%nat /\
    r = acc ++ map (net_forward (autograd w) G) (firstn n (skipn k l)) /\
    Forall (fun x => channels x = net_in G) (firstn n (skipn k l)).
Proof.
  induction n as [|n IH]; intros k acc r w' Hk H.
  - simpl in H. injection H as <- <-. rewrite app_nil_r.
    repeat split; [lia | constructor].
  - simpl foldM in H. unfold bind at 1 in H. unfold bind at 1 in H.
    unfold getitem at 1 in H. rewrite py_getitem_nat in H.
    destruct (nth_error l k) as [x|] eqn:Hx; [|discriminate].
    assert (k < List.length l)%nat as Hlt
      by (apply nth_error_Some; rewrite Hx; discriminate).
    unfold bind at 1 in H.
    destruct (call_checked G x w) as [[y|e] w1] eqn:Hc; [|discriminate].
    apply call_checked_inv in Hc. destruct Hc as (Hch & -> & ->).
    unfold ret at 1 in H.
    apply IH in H; [|lia]. destruct H as (-> & Hn & -> & Hall).
    rewrite (skipn_nth_error _ _ _ Hx). simpl.
    rewrite <- app_assoc. repeat split; [lia | constructor; assumption].
Qed.

(** What the body of a domain yields when it yields something, and what
    the checks it passed say of the frames. *)
Lemma render_checked_inv (G_X_to_Y G_Y_to_X P_X P_Y : Net)
    (x : tensor) (xs : list tensor) (w w' : World)
    (tx spat temp fake reco : tensor) :
  render_with call_checked G_X_to_Y G_Y_to_X P_X P_Y x xs w
  = (Ok (tx, spat, temp, fake, reco), w') ->
  let h := autograd w in
  let t := self_t (self w) in
  w' = w /\
  1 <= t <= Z.of_nat (List.length xs) /\
  fake = fake_frame_of h G_X_to_Y P_Y t x xs /\
  reco = reco_frame_of h G_X_to_Y G_Y_to_X P_X P_Y t xs /\
  Forall (fun y => channels y = net_in G_X_to_Y) (firstn (Z.to_nat t) xs) /\
  channels (t_cat xs) = net_in P_X.
Proof.
  intros H. cbv zeta. unfold render_with in H.
  unfold bind at 1, gets at 1 in H. unfold bind at 1, gets at 1 in H.
  rewrite map_to_device in H. unfold to_device in H.
  rewrite py_range_from_0 in H.
  unfold bind at 1 in H.
  match type of H with
  | context [foldM ?body ?idx ?acc w] =>
      destruct (foldM body idx acc w) as [[r|e] w1] eqn:Hloop; [|discriminate]
  end.
  apply checked_loop_inv in Hloop; [|lia].
  destruct Hloop as (-> & Hlen & -> & Hall).
  simpl in Hlen, Hall. simpl ([] ++ _) in H. simpl (skipn 0 xs) in H.
  unfold bind at 1, lift at 1 in H.
  destruct (torch_cat (map (net_forward (autograd w) G_X_to_Y)
                           (firstn (Z.to_nat (self_t (self w))) xs)))
    as [fy|e] eqn:Hfy; [|discriminate].
  assert (Z.to_nat (self_t (self w)) <> 0%nat) as Hpos.
  { intros E. rewrite E in Hfy. simpl in Hfy. discriminate. }
  unfold bind at 1, lift at 1 in H.
  destruct (torch_cat xs) as [cx|e] eqn:Hcx; [|discriminate].
  assert (fy = t_cat (map (net_forward (autograd w) G_X_to_Y)
                          (firstn (Z.to_nat (self_t (self w))) xs))) as ->.
  { unfold torch_cat in Hfy.
    destruct (map _ _); [discriminate | injection Hfy as <-; reflexivity]. }
  assert (cx = t_cat xs) as ->.
  { unfold torch_cat in Hcx.
    destruct xs; [discriminate | injection Hcx as <-; reflexivity]. }
  unfold bind at 1 in H.
  destruct (call_checked G_X_to_Y x w) as [[r1|e] w1] eqn:H1; [|discriminate].
  apply call_checked_inv in H1. destruct H1 as (_ & -> & ->).
  unfold bind at 1 in H.
  destruct (call_checked P_Y _ w) as [[r2|e] w1] eqn:H2; [|discriminate].
  apply call_checked_inv in H2. destruct H2 as (_ & -> & ->).
  unfold bind at 1 in H.
  destruct (call_checked P_Y _ w) as [[r3|e] w1] eqn:H3; [|discriminate].
  apply call_checked_inv in H3. destruct H3 as (_ & -> & ->).
  unfold bind at 1 in H.
  destruct (call_checked G_Y_to_X _ w) as [[r4|e] w1] eqn:H4; [|discriminate].
  apply call_checked_inv in H4. destruct H4 as (_ & -> & ->).
  unfold bind at 1 in H.
  destruct (call_checked P_X _ w) as [[r5|e] w1] eqn:H5; [|discriminate].
  apply call_checked_inv in H5. destruct H5 as (Hch & -> & ->).
  unfold ret in H. injection H as <- <- <- <- <- <-.
  repeat split; try assumption; lia.
Qed.

Lemma forward_domain_checked_inv (G_X_to_Y G_Y_to_X P_X P_Y : Net)
    (x domain : string) (tx : option tensor) (txs : option (list tensor))
    (w w' : World) (e1 e2 e3 e4 e5 : option tensor) :
  forward_domain_with call_checked G_X_to_Y G_Y_to_X P_X P_Y x domain tx txs w
  = (Ok (e1, e2, e3, e4, e5), w') ->
  w' = w /\
  forall fx sx, tx = Some fx -> txs = Some sx ->
    e4 = Some (fake_frame_of (autograd w) G_X_to_Y P_Y (self_t (self w)) fx sx) /\
    e5 = Some (reco_frame_of (autograd w) G_X_to_Y G_Y_to_X P_X P_Y
                             (self_t (self w)) sx) /\
    1 <= self_t (self w) <= Z.of_nat (List.length sx) /\
    Forall (fun y => channels y = net_in G_X_to_Y)
           (firstn (Z.to_nat (self_t (self w))) sx) /\
    channels (t_cat sx) = net_in P_X.
Proof.
  destruct tx as [fx|], txs as [sx|]; simpl; intros H; try discriminate.
  - unfold bind in H.
    destruct (render_with call_checked G_X_to_Y G_Y_to_X P_X P_Y fx sx w)
      as [[[[[[tx' spat] temp] fake] reco]|e] w1] eqn:Hr; [|discriminate].
    injection H as <- <- <- <- <- <-.
    apply render_checked_inv in Hr. cbv zeta in Hr.
    destruct Hr as (-> & Ht & -> & -> & Hall & Hch).
    split; [reflexivity|].
    intros fx' sx' E1 E2. injection E1 as <-. injection E2 as <-.
    repeat split; try assumption; lia.
  - injection H as <- <- <- <- <- <-. split; [reflexivity|].
    intros fx sx E. discriminate.
Qed.

Lemma sum_of_equal (c : Z) (l : list tensor) :
  Forall (fun y => channels y = c) l ->
  fold_right Z.add 0 (map channels l) = Z.of_nat (List.length l) * c.
Proof.
  induction 1 as [|y l Hy _ IH]; simpl List.length; simpl map; simpl fold_right.
  - reflexivity.
  - rewrite IH, Hy. lia.
Qed.

Lemma sum_zero (l : list tensor) :
  fold_right Z.add 0 (map channels l) = 0 ->
  forall y, In y l -> channels y = 0.
Proof.
  induction l as [|z l IH]; simpl; intros H y Hy; [contradiction|].
  assert (0 <= fold_right Z.add 0 (map channels l)) as Hrest.
  { clear. induction l as [|u l IH]; simpl; [lia|].
    pose proof (channels_nonneg u). lia. }
  pose proof (channels_nonneg z) as Hz.
  destruct Hy as [<-|Hy]; [lia|]. apply IH; [lia | exact Hy].
Qed.

(** A list whose first [n] frames already fill the channels the predictor
    was built for adds nothing to them. *)
Lemma whole_list_is_tuple (c : Z) (n : nat) (xs : list tensor) :
  (n <= List.length xs)%nat ->
  Forall (fun y => channels y = c) (firstn n xs) ->
  channels (t_cat xs) = Z.of_nat n * c ->
  t_cat xs = t_cat (firstn n xs).
Proof.
  intros Hn Hall Hch.
  rewrite <- (firstn_skipn n xs) at 1.
  apply cat_without_empty. apply sum_zero.
  rewrite channels_cat in Hch.
  rewrite <- (firstn_skipn n xs), map_app, fold_right_app in Hch.
  assert (forall (l1 : list Z) (z : Z),
            fold_right Z.add z l1 = fold_right Z.add 0 l1 + z) as Hsplit.
  { induction l1 as [|u l1 IH]; intros z; simpl; [lia|]. rewrite IH. lia. }
  rewrite Hsplit, (sum_of_equal c _ Hall), length_firstn, Nat.min_l in Hch
    by exact Hn.
  lia.
Qed.

Lemma forward_with_run (call_net : Net -> tensor -> M tensor)
    (ta tb : option tensor) (tas tbs : option (list tensor))
    (warning : bool) (w : World) :
  forward_with call_net ta tb tas tbs warning w
  = let w1 := if warning then print inference_notice w else w in
    let m := self w in
    if negb (given ta || given tb || given tas || given tbs) then
      (Raise all_none_error, w1)
    else
      match forward_domain_with call_net (G_A_to_B m) (G_B_to_A m) (P_A m)
                                (P_B m) "a" "A" ta tas w1 with
      | (Raise e, w2) => (Raise e, w2)
      | (Ok ra, w2) =>
          match forward_domain_with call_net (G_B_to_A m) (G_A_to_B m) (P_B m)
                                    (P_A m) "b" "B" tb tbs w2 with
          | (Raise e, w3) => (Raise e, w3)
          | (Ok rb, w3) => (Ok (answer_of ra rb), w3)
          end
      end.
Proof.
  cbv zeta. unfold forward_with.
  assert (self (if warning then print inference_notice w else w) = self w) as Hs
    by (destruct warning; reflexivity).
  unfold bind at 1.
  replace ((if warning then INFO inference_notice else ret tt) w)
    with (Ok tt, if warning then print inference_notice w else w)
    by (destruct warning; reflexivity).
  set (w1 := if warning then print inference_notice w else w) in *.
  destruct ta, tb, tas, tbs; simpl negb; cbv iota;
    try (unfold bind at 1; unfold raise; reflexivity);
    unfold bind at 1; unfold ret at 1;
    unfold bind at 1; unfold gets at 1; rewrite Hs;
    unfold bind at 1;
    (destruct (forward_domain_with _ _ _ _ _ "a" "A" _ _ w1)
       as [[[[[[? ?] ?] ?] ?]|?] ?]; [|reflexivity]);
    unfold bind at 1;
    (destruct (forward_domain_with _ _ _ _ _ "b" "B" _ _ _)
       as [[[[[[? ?] ?] ?] ?]|?] ?]; reflexivity).
Qed.


End CheckedFacts.

(** * The facts at work on the small instance *)

Section Examples.

Import Toy.
#[local] Existing Instance Toy.torch.

(** C4 as worded fails: with the sequence length the module's own header
    announces, [T + t - 1] frames, the split yields one frame less than
    [self.T] and [backward] raises IndexError while translating; with
    [T = 0] the loop runs no step, the loss is still the float 0.0 and
    [loss_G.backward()] raises; with [t = 0] the tuples are empty and
    [torch.cat] raises.  No optimizer step is done in any of the three. *)
Lemma backward_may_stop_early :
  (self_T (self (loaded 2 2 3)) = 4 /\
   option_map (@List.length term)
     (match fst (frame_list "true_a_seq" true_a_seq (loaded 2 2 3)) with
      | Ok l => Some l
      | Raise _ => None
      end) = Some 3%nat /\
   outcome (backward (loaded 2 2 3)) = Raise IndexError /\
   filter is_step (autograd (snd (backward (loaded 2 2 3)))) = []) /\
  (outcome (backward (loaded 0 2 2)) = Raise (AttributeError "backward") /\
   filter is_step (autograd (snd (backward (loaded 0 2 2)))) = []) /\
  (outcome (backward (loaded 2 0 2))
   = Raise (RuntimeError "torch.cat(): expected a non-empty list of Tensors") /\
   filter is_step (autograd (snd (backward (loaded 2 0 2)))) = []).
Proof. vm_compute. repeat split. Qed.

Lemma backward_accumulates_and_steps_witness :
  (1 <= self_t (self (loaded 2 2 4)) /\
   self_t (self (loaded 2 2 4)) < self_T (self (loaded 2 2 4)) /\
   true_a_seq (self (loaded 2 2 4)) = Some (map stored_a (py_range 0 4)) /\
   true_b_seq (self (loaded 2 2 4)) = Some (map stored_b (py_range 0 4))) /\
  fst (backward (loaded 2 2 4)) = Ok tt /\
  filter is_step (autograd (snd (backward (loaded 2 2 4))))
  = [Step (optim_G (self (loaded 2 2 4))); Step (optim_D (self (loaded 2 2 4)))].
Proof.
  assert (1 <= self_t (self (loaded 2 2 4))) as H1 by (vm_compute; discriminate).
  assert (self_t (self (loaded 2 2 4)) < self_T (self (loaded 2 2 4))) as H2
    by reflexivity.
  assert (true_a_seq (self (loaded 2 2 4)) = Some (map stored_a (py_range 0 4)))
    as H3 by reflexivity.
  assert (true_b_seq (self (loaded 2 2 4)) = Some (map stored_b (py_range 0 4)))
    as H4 by reflexivity.
  split; [repeat split; assumption|].
  destruct (@backward_accumulates_and_steps Toy.torch stored_a stored_b
              (loaded 2 2 4) H1 H2 H3 H4)
    as (_ & _ & _ & _ & _ & lg & ld & _ & _ & Hok & _ & _ & Hlog).
  split; [exact Hok|]. rewrite Hlog. reflexivity.
Defined.

(** C8 as worded fails: both inputs of domain A are given, domain B is
    left out, and [forward] raises IndexError because the list holds one
    frame where [t = 2] are read. *)
Lemma forward_short_list_raises :
  given (Some (fa 9)) || given (@None term) || given (Some [fa 0])
    || given (@None (list term)) = true /\
  xorb (given (Some (fa 9))) (given (Some [fa 0])) = false /\
  xorb (given (@None term)) (given (@None (list term))) = false /\
  self_t (self (fresh 2 2)) = 2 /\
  outcome (forward_A 2 [0]) = Raise IndexError.
Proof. repeat split. Qed.

Lemma forward_raises_or_returns_witness :
  (1 <= self_t (self (fresh 2 2)) /\
   long_enough (self_t (self (fresh 2 2))) (Some (map fa [0; 1]))) /\
  exists d, fst (forward_A 2 [0; 1]) = Ok d.
Proof.
  assert (1 <= self_t (self (fresh 2 2))) as H1 by (vm_compute; discriminate).
  assert (long_enough (self_t (self (fresh 2 2))) (Some (map fa [0; 1]))) as H2
    by (vm_compute; discriminate).
  split; [split; assumption|].
  destruct (@forward_raises_or_returns Toy.torch (Some (fa 9)) None
              (Some (map fa [0; 1])) None false (fresh 2 2))
    as (_ & _ & _ & Hret).
  exact (Hret eq_refl eq_refl eq_refl H1 H2 I).
Defined.

Lemma forward_dict_shape_witness :
  forward_A 2 [0; 1] = (Ok (answer (forward_A 2 [0; 1])), snd (forward_A 2 [0; 1])) /\
  keys (answer (forward_A 2 [0; 1])) = keys_A ++ keys_B /\
  dict_get (answer (forward_A 2 [0; 1])) "true_b" = Some None.
Proof.
  assert (forward_A 2 [0; 1]
          = (Ok (answer (forward_A 2 [0; 1])), snd (forward_A 2 [0; 1]))) as H
    by reflexivity.
  split; [exact H|].
  destruct (@forward_dict_shape Toy.torch (Some (fa 9)) None
              (Some (map fa [0; 1])) None false (fresh 2 2) _ _ H)
    as (Hk & _ & HB).
  split; [exact Hk|].
  destruct (HB "true_b" (or_introl eq_refl)) as [_ Hiff].
  apply Hiff. split; reflexivity.
Defined.

Lemma step_reads_buffers_witness :
  (loss_G (self stepped) = Some stepped_G /\
   py_getitem fakes_b 3 = Some (fake_b_at [] (self stepped) stored_a 3)) /\
  fst (accumulate_step frames_a frames_b fakes_b fakes_a 3 stepped) = Ok tt /\
  fake_b_buffer (self (snd (accumulate_step frames_a frames_b fakes_b fakes_a 3 stepped)))
  = [fake_b_at [] (self stepped) stored_a 3] /\
  fst (fst (push_and_pop (rng stepped) (fake_b_buffer (self stepped))
              (fake_b_at [] (self stepped) stored_a 3)))
  = fake_b_at [] (self stepped) stored_a 2.
Proof.
  assert (loss_G (self stepped) = Some stepped_G) as HG
    by (vm_compute; reflexivity).
  assert (loss_D (self stepped) = Some stepped_D) as HD
    by (vm_compute; reflexivity).
  assert (torch_cat (py_slice frames_a (3 - self_t (self stepped)) 3)
          = Ok (Cat [stored_a 1; stored_a 2])) as Xa
    by (vm_compute; reflexivity).
  assert (torch_cat (py_slice fakes_b (3 - self_t (self stepped)) 3)
          = Ok (Cat [fake_b_at [] (self stepped) stored_a 1;
                     fake_b_at [] (self stepped) stored_a 2])) as Yb
    by (vm_compute; reflexivity).
  assert (torch_cat (py_slice frames_b (3 - self_t (self stepped)) 3)
          = Ok (Cat [stored_b 1; stored_b 2])) as Xb
    by (vm_compute; reflexivity).
  assert (torch_cat (py_slice fakes_a (3 - self_t (self stepped)) 3)
          = Ok (Cat [fake_a_at [] (self stepped) stored_b 1;
                     fake_a_at [] (self stepped) stored_b 2])) as Ya
    by (vm_compute; reflexivity).
  assert (py_getitem frames_a 3 = Some (stored_a 3)) as Ia
    by (vm_compute; reflexivity).
  assert (py_getitem frames_b 3 = Some (stored_b 3)) as Ib
    by (vm_compute; reflexivity).
  assert (py_getitem fakes_b 3 = Some (fake_b_at [] (self stepped) stored_a 3))
    as Jb by (vm_compute; reflexivity).
  assert (py_getitem fakes_a 3 = Some (fake_a_at [] (self stepped) stored_b 3))
    as Ja by (vm_compute; reflexivity).
  split; [split; assumption|].
  destruct (@step_reads_buffers Toy.torch frames_a frames_b fakes_b fakes_a 3
              stepped stepped_G stepped_D _ _ _ _ _ _ _ _
              HG HD Xa Yb Xb Ya Ia Ib Jb Ja)
    as (Hok & _ & Hbuf & _).
  split; [exact Hok|].
  split; [rewrite Hbuf; vm_compute; reflexivity | vm_compute; reflexivity].
Defined.

End Examples.

(** * The further facts on the small instance *)

Section MoreExamples.

Import Toy.
#[local] Existing Instance Toy.torch.

Lemma forward_fault_order_witness :
  (1 <= self_t (self (fresh 2 2)) /\
   Z.of_nat (List.length [fa 0]) < self_t (self (fresh 2 2))) /\
  fst (forward (Some (fa 9)) (Some (fb 9)) (Some [fa 0]) None false (fresh 2 2))
  = Raise IndexError.
Proof.
  assert (1 <= self_t (self (fresh 2 2))) as H1 by (vm_compute; discriminate).
  assert (Z.of_nat (List.length [fa 0]) < self_t (self (fresh 2 2))) as H2
    by reflexivity.
  split; [split; assumption|].
  destruct (@forward_fault_order Toy.torch (fa 9) (fb 9) [fa 0] [fb 0]
              None (Some (fb 9)) None None false (fresh 2 2))
    as (_ & Hshort & _).
  exact (Hshort H1 H2).
Defined.

Lemma forward_joins_domains_witness :
  (fst (forward_A 2 [0; 1]) = Ok (answer (forward_A 2 [0; 1])) /\
   fst forward_B = Ok (answer forward_B)) /\
  exists d,
    fst forward_AB = Ok d /\
    (forall k, In k keys_A -> dict_get d k = dict_get (answer (forward_A 2 [0; 1])) k) /\
    (forall k, In k keys_B -> dict_get d k = dict_get (answer forward_B) k).
Proof.
  assert (fst (forward_A 2 [0; 1]) = Ok (answer (forward_A 2 [0; 1]))) as HA
    by reflexivity.
  assert (fst forward_B = Ok (answer forward_B)) as HB by reflexivity.
  split; [split; assumption|].
  exact (@forward_joins_domains Toy.torch (Some (fa 9)) (Some (fb 9))
           (Some (map fa [0; 1])) (Some (map fb [0; 1])) false false true
           (fresh 2 2) _ _ HA HB).
Defined.

Lemma forward_reads_little_witness :
  (self_t (self (fresh 2 2)) = self_t (self (loaded 5 2 7)) /\
   P_A (self (fresh 2 2)) = P_A (self (loaded 5 2 7))) /\
  fst (forward (Some (fa 9)) None (Some (map fa [0; 1])) None true (fresh 2 2))
  = fst (forward (Some (fa 9)) None (Some (map fa [0; 1])) None false
           (loaded 5 2 7)).
Proof.
  split; [split; reflexivity|].
  apply (@forward_reads_little Toy.torch); reflexivity.
Defined.

Lemma forward_entries_witness :
  fst (forward_A 2 [0; 1]) = Ok (answer (forward_A 2 [0; 1])) /\
  exists spat temp,
    dict_get (answer (forward_A 2 [0; 1])) "true_a" = Some (Some (fa 9)) /\
    dict_get (answer (forward_A 2 [0; 1])) "fake_b_spat" = Some (Some spat) /\
    dict_get (answer (forward_A 2 [0; 1])) "fake_b_temp" = Some (Some temp) /\
    dict_get (answer (forward_A 2 [0; 1])) "fake_b"
    = Some (Some (RMul (1 # 2) (Add spat temp))).
Proof.
  assert (fst (forward_A 2 [0; 1]) = Ok (answer (forward_A 2 [0; 1]))) as H
    by reflexivity.
  split; [exact H|].
  destruct (@forward_entries Toy.torch (Some (fa 9)) None
              (Some (map fa [0; 1])) None false (fresh 2 2) _ H) as [HA _].
  destruct (HA (fa 9) (map fa [0; 1]) eq_refl eq_refl)
    as (spat & temp & H1 & H2 & H3 & H4 & _).
  exists spat, temp. repeat split; assumption.
Defined.

Lemma backward_needs_input_witness :
  true_a_seq (self (fresh 2 2)) = None /\
  backward (fresh 2 2) = (Raise (AttributeError "true_a_seq"), fresh 2 2).
Proof.
  split; [reflexivity|].
  exact (proj1 (@backward_needs_input Toy.torch (fresh 2 2)) eq_refl).
Defined.

Lemma backward_short_sequence_witness :
  (true_a_seq (self (loaded 2 2 3)) = Some (map stored_a (py_range 0 3)) /\
   self_T (self (loaded 2 2 3)) = 4) /\
  fst (backward (loaded 2 2 3)) = Raise IndexError /\
  loss_G (self (snd (backward (loaded 2 2 3)))) = Some (PyFloat 0) /\
  autograd (snd (backward (loaded 2 2 3))) = autograd (loaded 2 2 3).
Proof.
  split; [split; reflexivity|].
  destruct (@backward_short_sequence Toy.torch
              (map stored_a (py_range 0 3)) (map stored_b (py_range 0 3))
              (loaded 2 2 3))
    as (H1 & H2 & _ & _ & _ & _ & H3);
    try reflexivity; try (vm_compute; split; discriminate).
  repeat split; assumption.
Defined.

Lemma backward_without_steps_witness :
  (self_T (self (loaded 0 2 2)) = 2 /\ self_t (self (loaded 0 2 2)) = 2) /\
  fst (backward (loaded 0 2 2)) = Raise (AttributeError "backward") /\
  stepped_optimizers (autograd (snd (backward (loaded 0 2 2)))) = [].
Proof.
  split; [split; reflexivity|].
  destruct (@backward_without_steps Toy.torch
              (map stored_a (py_range 0 2)) (map stored_b (py_range 0 2))
              (loaded 0 2 2))
    as (H1 & _ & _ & _ & H2);
    try reflexivity; try (vm_compute; split; discriminate).
  split; [exact H1 | exact H2].
Defined.

Lemma construct_load_train_witness :
  (self (fresh 2 2) = __init__ 3 3 2 2 1 "cpu" /\
   Z.of_nat (List.length (map fa (py_range 0 4))) = 2 + 2) /\
  fst (backward (snd (setInput (map fa (py_range 0 4)) (map fb (py_range 0 4))
                        (fresh 2 2)))) = Ok tt /\
  stepped_optimizers
    (autograd (snd (backward (snd (setInput (map fa (py_range 0 4))
                                     (map fb (py_range 0 4)) (fresh 2 2))))))
  = stepped_optimizers (autograd (fresh 2 2))
    ++ [optim_G (self (fresh 2 2)); optim_D (self (fresh 2 2))].
Proof.
  assert (self (fresh 2 2) = __init__ 3 3 2 2 1 "cpu") as H0 by reflexivity.
  assert (1 <= 2) as H1 by (vm_compute; discriminate).
  assert (Z.of_nat (List.length (map fa (py_range 0 4))) = 2 + 2) as La
    by (vm_compute; reflexivity).
  assert (Z.of_nat (List.length (map fb (py_range 0 4))) = 2 + 2) as Lb
    by (vm_compute; reflexivity).
  split; [split; assumption|].
  destruct (@construct_load_train Toy.torch 3 3 2 2 1 "cpu" (fresh 2 2)
              (map fa (py_range 0 4)) (map fb (py_range 0 4))
              H0 H1 H1 La Lb)
    as (_ & Hok & _ & Hsteps).
  split; [exact Hok | exact Hsteps].
Defined.

Lemma train_steps_witness :
  (1 <= self_t (self (loaded 2 2 4)) /\
   self_t (self (loaded 2 2 4)) < self_T (self (loaded 2 2 4))) /\
  fst (train 3 (loaded 2 2 4)) = Ok tt /\
  List.length (stepped_optimizers (autograd (snd (train 3 (loaded 2 2 4)))))
  = 6%nat.
Proof.
  assert (1 <= self_t (self (loaded 2 2 4))) as H1 by (vm_compute; discriminate).
  assert (self_t (self (loaded 2 2 4)) < self_T (self (loaded 2 2 4))) as H2
    by reflexivity.
  split; [split; assumption|].
  destruct (@train_steps Toy.torch
              (map stored_a (py_range 0 4)) (map stored_b (py_range 0 4)) 3
              (loaded 2 2 4) H1 H2 eq_refl eq_refl eq_refl eq_refl)
    as (Hok & _ & Hsteps).
  split; [exact Hok|]. rewrite Hsteps. reflexivity.
Defined.

Lemma generator_ignores_current_fakes_witness :
  (py_getitem fakes_b 3 <> py_getitem other_fakes_b 3 /\
   py_slice fakes_b 1 3 = py_slice other_fakes_b 1 3) /\
  loss_G (self (snd (accumulate_step frames_a frames_b fakes_b fakes_a 3 stepped)))
  = loss_G (self (snd (accumulate_step frames_a frames_b
                         other_fakes_b other_fakes_a 3 stepped))).
Proof.
  split; [split; [vm_compute; discriminate | vm_compute; reflexivity]|].
  assert (loss_G (self stepped) = Some stepped_G) as HG
    by (vm_compute; reflexivity).
  assert (loss_D (self stepped) = Some stepped_D) as HD
    by (vm_compute; reflexivity).
  assert (torch_cat (py_slice frames_a (3 - self_t (self stepped)) 3)
          = Ok (Cat [stored_a 1; stored_a 2])) as Xa
    by (vm_compute; reflexivity).
  assert (torch_cat (py_slice frames_b (3 - self_t (self stepped)) 3)
          = Ok (Cat [stored_b 1; stored_b 2])) as Xb
    by (vm_compute; reflexivity).
  assert (torch_cat (py_slice fakes_b (3 - self_t (self stepped)) 3)
          = Ok (Cat [fake_b_at [] (self stepped) stored_a 1;
                     fake_b_at [] (self stepped) stored_a 2])) as Yb
    by (vm_compute; reflexivity).
  assert (torch_cat (py_slice other_fakes_b (3 - self_t (self stepped)) 3)
          = Ok (Cat [fake_b_at [] (self stepped) stored_a 1;
                     fake_b_at [] (self stepped) stored_a 2])) as Yb'
    by (vm_compute; reflexivity).
  assert (torch_cat (py_slice fakes_a (3 - self_t (self stepped)) 3)
          = Ok (Cat [fake_a_at [] (self stepped) stored_b 1;
                     fake_a_at [] (self stepped) stored_b 2])) as Ya
    by (vm_compute; reflexivity).
  assert (torch_cat (py_slice other_fakes_a (3 - self_t (self stepped)) 3)
          = Ok (Cat [fake_a_at [] (self stepped) stored_b 1;
                     fake_a_at [] (self stepped) stored_b 2])) as Ya'
    by (vm_compute; reflexivity).
  assert (py_getitem frames_a 3 = Some (stored_a 3)) as Ia
    by (vm_compute; reflexivity).
  assert (py_getitem frames_b 3 = Some (stored_b 3)) as Ib
    by (vm_compute; reflexivity).
  assert (py_getitem fakes_b 3 = Some (fake_b_at [] (self stepped) stored_a 3))
    as Jb by (vm_compute; reflexivity).
  assert (py_getitem fakes_a 3 = Some (fake_a_at [] (self stepped) stored_b 3))
    as Ja by (vm_compute; reflexivity).
  assert (py_getitem other_fakes_b 3 = Some (Frame "x" 0)) as Jb'
    by (vm_compute; reflexivity).
  assert (py_getitem other_fakes_a 3 = Some (Frame "y" 0)) as Ja'
    by (vm_compute; reflexivity).
  exact (proj2 (proj2
    (@generator_ignores_current_fakes Toy.torch
       frames_a frames_b fakes_b fakes_a other_fakes_b other_fakes_a 3
       stepped stepped_G stepped_D _ _ _ _ _ _ _ _ _ _
       HG HD Xa Xb Yb Yb' Ya Ya' Ia Ib Jb Ja Jb' Ja'))).
Defined.

Lemma backward_bad_chunks_witness :
  (true_a_seq (self (loaded 0 0 0)) = Some [] /\
   self_T (self (loaded 0 0 0)) <= 0) /\
  backward (loaded 0 0 0)
  = (Raise (RuntimeError "chunk expects `chunks` to be greater than 0, got: 0"),
     loaded 0 0 0).
Proof.
  assert (true_a_seq (self (loaded 0 0 0)) = Some []) as H1 by reflexivity.
  assert (self_T (self (loaded 0 0 0)) <= 0) as H2 by (vm_compute; discriminate).
  split; [split; assumption|].
  exact (@backward_bad_chunks Toy.torch [] (loaded 0 0 0) H1 H2).
Defined.

Lemma backward_forgets_losses_witness :
  (true_a_seq (self (loaded 2 2 4)) = Some (map stored_a (py_range 0 4)) /\
   loss_G (self (stale 2 2 4)) = Some (PyTensor (Frame "g" 0))) /\
  backward (stale 2 2 4) = backward (loaded 2 2 4).
Proof.
  split; [split; reflexivity|].
  apply (@backward_forgets_losses Toy.torch
           (map stored_a (py_range 0 4)) (map stored_b (py_range 0 4))
           (loaded 2 2 4));
    try reflexivity; vm_compute; split; discriminate.
Defined.

Lemma forward_after_backward_witness :
  (1 <= self_t (self (loaded 2 2 4)) /\
   self_t (self (loaded 2 2 4)) < self_T (self (loaded 2 2 4))) /\
  exists lg ld,
    autograd (snd (backward (loaded 2 2 4)))
    = autograd (loaded 2 2 4) ++ update_events (self (loaded 2 2 4)) lg ld /\
    fst (forward (Some (fa 9)) None (Some (map fa [0; 1])) None false
           (snd (backward (loaded 2 2 4))))
    = forward_result (self (loaded 2 2 4))
        (autograd (loaded 2 2 4) ++ update_events (self (loaded 2 2 4)) lg ld)
        (Some (fa 9)) None (Some (map fa [0; 1])) None.
Proof.
  assert (1 <= self_t (self (loaded 2 2 4))) as H1 by (vm_compute; discriminate).
  assert (self_t (self (loaded 2 2 4)) < self_T (self (loaded 2 2 4))) as H2
    by reflexivity.
  split; [split; assumption|].
  exact (@forward_after_backward Toy.torch
           (map stored_a (py_range 0 4)) (map stored_b (py_range 0 4))
           (loaded 2 2 4) (Some (fa 9)) None (Some (map fa [0; 1])) None false
           H1 H2 eq_refl eq_refl eq_refl eq_refl).
Defined.

Lemma backward_empty_tuples_witness :
  (self_t (self (loaded 2 0 2)) = 0 /\ 1 <= self_T (self (loaded 2 0 2))) /\
  backward (loaded 2 0 2)
  = (Raise (RuntimeError "torch.cat(): expected a non-empty list of Tensors"),
     install (start (loaded 2 0 2)) (loaded 2 0 2)).
Proof.
  assert (self_t (self (loaded 2 0 2)) = 0) as H1 by reflexivity.
  assert (1 <= self_T (self (loaded 2 0 2))) as H2 by (vm_compute; discriminate).
  split; [split; assumption|].
  exact (@backward_empty_tuples Toy.torch
           (map stored_a (py_range 0 2)) (map stored_b (py_range 0 2))
           (loaded 2 0 2) eq_refl eq_refl eq_refl eq_refl H1 H2).
Defined.

(** C10 as worded fails in its last clause: three stored frames on a model
    built with [T = 2] and [t = 2] are split into three frames, not
    [T + t = 4], and no time step is accumulated; with [t = 0] and
    [T + t = 2] frames the first step raises and none of the [T = 2] steps
    is accumulated; with [T = -1] the loop has no step at all. *)
Lemma backward_steps_follow_the_input :
  (self_T (self (loaded 2 2 3)) = 2 + 2 /\
   option_map (@List.length term)
     (match fst (frame_list "true_a_seq" true_a_seq (loaded 2 2 3)) with
      | Ok l => Some l
      | Raise _ => None
      end) = Some 3%nat /\
   outcome (backward (loaded 2 2 3)) = Raise IndexError /\
   loss_G (self (snd (backward (loaded 2 2 3)))) = Some (PyFloat 0)) /\
  (option_map (@List.length term) (true_a_seq (self (loaded 2 0 2)))
   = Some 2%nat /\
   outcome (backward (loaded 2 0 2))
   = Raise (RuntimeError "torch.cat(): expected a non-empty list of Tensors") /\
   loss_G (self (snd (backward (loaded 2 0 2)))) = Some (PyFloat 0)) /\
  (option_map (@List.length term) (true_a_seq (self (loaded (-1) 3 2)))
   = Some 2%nat /\
   steps (self (loaded (-1) 3 2)) = []).
Proof. vm_compute. repeat split. Qed.

Lemma t_and_T_are_fixed_witness :
  (self (fresh 2 2) = __init__ 3 3 2 2 1 "cpu" /\
   Z.of_nat (List.length (map fa (py_range 0 4))) = 2 + 2) /\
  Z.of_nat (List.length (py_range 2 (2 + 2))) = 2 /\
  frame_list "true_a_seq" true_a_seq
    (snd (setInput (map fa (py_range 0 4)) (map fb (py_range 0 4)) (fresh 2 2)))
  = (Ok (map (fun x => to_device "cpu" (t_float x)) (map fa (py_range 0 4))),
     snd (setInput (map fa (py_range 0 4)) (map fb (py_range 0 4)) (fresh 2 2))) /\
  loss_G (self (snd (backward
            (snd (setInput (map fa (py_range 0 4)) (map fb (py_range 0 4))
                    (fresh 2 2))))))
  = Some (fold_left iadd
            (flat_map
               (gen_losses (autograd (fresh 2 2))
                  (self (snd (setInput (map fa (py_range 0 4))
                                (map fb (py_range 0 4)) (fresh 2 2))))
                  (frame_of (map (fun x => to_device "cpu" (t_float x))
                               (map fa (py_range 0 4))) (fa 0))
                  (frame_of (map (fun x => to_device "cpu" (t_float x))
                               (map fb (py_range 0 4))) (fa 0)))
               (py_range 2 (2 + 2)))
            (PyFloat 0)).
Proof.
  assert (self (fresh 2 2) = __init__ 3 3 2 2 1 "cpu") as H0 by reflexivity.
  assert (0 <= 2) as HT by (vm_compute; discriminate).
  assert (1 <= 2) as Ht by (vm_compute; discriminate).
  assert (Z.of_nat (List.length (map fa (py_range 0 4))) = 2 + 2) as La
    by (vm_compute; reflexivity).
  assert (Z.of_nat (List.length (map fb (py_range 0 4))) = 2 + 2) as Lb
    by (vm_compute; reflexivity).
  split; [split; assumption|].
  destruct (@t_and_T_are_fixed Toy.torch 3 3 2 2 1 "cpu")
    as (_ & _ & _ & _ & _ & _ & _ & Hrun).
  destruct (Hrun (fresh 2 2) (map fa (py_range 0 4)) (map fb (py_range 0 4))
                 (fa 0) H0 HT Ht La Lb)
    as (Hfa & _ & _ & _ & Hn & HlG & _).
  split; [exact Hn|]. split; [exact Hfa | exact HlG].
Defined.

End MoreExamples.

(** * The checked networks on channel vectors *)

Section CheckedExamples.

#[local] Existing Instance Vec.torch.
#[local] Existing Instance Vec.shapes.

(** Three frames of three channels where [t = 2]: the predictor built for
    six channels is handed nine, and [forward] raises. *)
Lemma forward_checked_rejects_long_list :
  fst (Vec.forward_A [0; 3; 6])
  = Raise (RuntimeError "expected another number of channels").
Proof. reflexivity. Qed.


End CheckedExamples.
